(** * Food Brand E-Commerce API: catalog query, checkout and seed services

    A shallow embedding of [main.py] and [schemas.py].  The three request
    handlers [list_products], [checkout] and [seed_products] are written as
    functions that take the document store, thread it through the calls of
    [create_document] and return it next to the HTTP outcome.  Python
    exceptions are values of [exn]; the [try ... except Exception as e:
    raise HTTPException(status_code=500, detail=str(e))] wrapper of every
    handler is [guard].  A Python [str] is written as the bytes of its UTF-8
    encoding, so a character may take several bytes of a [string]. *)

From Stdlib Require Import ZArith List String Bool Lia QArith.
From Stdlib Require Import Decimal DecimalString.
Import ListNotations.
Open Scope string_scope.
Open Scope Z_scope.
Open Scope list_scope.
Set Warnings "-register-all".

(** ** Python values the handlers work with *)

(** Python's [float] (IEEE binary64).  The operations the handlers use are
    kept abstract, so that nothing below relies on arithmetic being exact or
    associative.  [of_int] is the implicit [int -> float] conversion, which
    raises [OverflowError] ([None]) on integers out of range; [of_decimal m k]
    is the float literal [m * 10^-k]; [fge0 x] is the comparison [x >= 0]
    behind pydantic's [ge=0] (false on NaN).  The five laws hold of binary64:
    sums and products of numbers [>= 0] are [>= 0] (possibly [inf], never
    NaN), and [float(0)] is [0.0]. *)
Class PyFloat (F : Type) := {
  fzero : F;
  fadd : F -> F -> F;
  fmul : F -> F -> F;
  feqb : F -> F -> bool;
  fge0 : F -> bool;
  of_int : Z -> option F;
  of_decimal : Z -> nat -> F;
  fge0_zero : fge0 fzero = true;
  of_int_zero : of_int 0 = Some fzero;
  fge0_of_decimal : forall m k, 0 <= m -> fge0 (of_decimal m k) = true;
  fge0_add : forall x y, fge0 x = true -> fge0 y = true -> fge0 (fadd x y) = true;
  fge0_mul_int : forall x q y,
    fge0 x = true -> 1 <= q -> of_int q = Some y -> fge0 (fmul x y) = true
}.

(** Exceptions raised below the handlers.  [ValidationError] is pydantic's,
    with the model's name and the fields that failed; [OverflowError] comes
    from [float * int]; [StoreError] is whatever the store client raises. *)
Inductive exn :=
| ValidationError (model : string) (fields : list string)
| OverflowError
| StoreError (msg : string).

(** [str(e)].  pydantic's report is abbreviated to the model and its failing
    fields. *)
Definition str (e : exn) : string :=
  match e with
  | ValidationError model fields =>
      ("validation error for " ++ model ++ ": "
       ++ String.concat ", " fields)%string
  | OverflowError => "int too large to convert to float"
  | StoreError msg => msg
  end.

(** The bytes [10xxxxxx] of UTF-8, which continue a character; every other
    byte starts one. *)
Definition is_continuation (c : Ascii.ascii) : bool :=
  (128 <=? Ascii.nat_of_ascii c)%nat && (Ascii.nat_of_ascii c <? 192)%nat.

(** [len(s)]: the number of characters. *)
Fixpoint char_count (s : string) : nat :=
  match s with
  | EmptyString => O
  | String c s' =>
      if is_continuation c then char_count s' else Datatypes.S (char_count s')
  end.

(** [s[:n]]: the first [n] characters, each with all of its bytes. *)
Fixpoint take_chars (n : nat) (s : string) : string :=
  match s with
  | EmptyString => EmptyString
  | String c s' =>
      if is_continuation c then String c (take_chars n s')
      else
        match n with
        | O => EmptyString
        | Datatypes.S n' => String c (take_chars n' s')
        end
  end.

Inductive result (A : Type) :=
| Ok (a : A)
| Raise (e : exn).
Arguments Ok {A} a.
Arguments Raise {A} e.

Definition bind {A B} (r : result A) (k : A -> result B) : result B :=
  match r with
  | Ok a => k a
  | Raise e => Raise e
  end.

Notation "x <- r ;; k" := (bind r (fun x => k))
  (at level 61, r at next level, right associativity).

(** What a handler hands back to FastAPI: a body, or an [HTTPException]. *)
Inductive response (A : Type) :=
| Return (body : A)
| HTTPException (status_code : Z) (detail : string).
Arguments Return {A} body.
Arguments HTTPException {A} status_code detail.

(** [try: ... except Exception as e: raise HTTPException(500, str(e))] *)
Definition guard {A} (r : result A) : response A :=
  match r with
  | Ok a => Return a
  | Raise e => HTTPException 500 (str e)
  end.

Section Values.
Context {F : Type}.

(** Raw values found in store records and in queries. *)
Inductive value :=
| VNone
| VBool (b : bool)
| VInt (z : Z)
| VFloat (x : F)
| VStr (s : string)
| VList (l : list value)
| VDict (kv : list (string * value)).

(** A Python [dict] with string keys, in insertion order. *)
Definition dict := list (string * value).

Fixpoint dict_get (k : string) (d : dict) : option value :=
  match d with
  | [] => None
  | (k', v) :: d' => if String.eqb k k' then Some v else dict_get k d'
  end.

(** [d[k] = v] *)
Fixpoint dict_set (k : string) (v : value) (d : dict) : dict :=
  match d with
  | [] => [(k, v)]
  | (k', v') :: d' =>
      if String.eqb k k' then (k, v) :: d' else (k', v') :: dict_set k v d'
  end.

(** [d.pop(k, None)], the dict that is left *)
Fixpoint dict_pop (k : string) (d : dict) : dict :=
  match d with
  | [] => []
  | (k', v) :: d' =>
      if String.eqb k k' then dict_pop k d' else (k', v) :: dict_pop k d'
  end.
End Values.
Arguments value F : clear implicits.
Arguments dict F : clear implicits.

(** pydantic's conversions of a raw value to a field's type, and its
    [EmailStr] check (which returns the normalised address).  How values of
    another type are coerced differs between pydantic versions and is left
    open; a value that already has the field's type is taken as it is. *)
Class Pydantic (F : Type) := {
  validate_email : string -> option string;
  coerce_str : value F -> option string;
  coerce_float : value F -> option F;
  coerce_bool : value F -> option bool;
  coerce_str_str : forall s, coerce_str (VStr s) = Some s;
  coerce_float_float : forall x, coerce_float (VFloat x) = Some x;
  coerce_bool_bool : forall b, coerce_bool (VBool b) = Some b
}.

(** ** schemas.py *)

Section Schemas.
Context {F : Type} `{PyFloat F} `{Pydantic F}.

Record Product := {
  p_title : string;
  p_description : option string;
  p_price : F;
  p_category : string;
  p_in_stock : bool;
  p_image : option string;
  p_featured : bool
}.

Record OrderItem := {
  oi_product_id : string;
  oi_title : string;
  oi_price : F;
  oi_quantity : Z;
  oi_image : option string
}.

Record Order := {
  o_customer_name : string;
  o_email : string;
  o_address : string;
  o_city : string;
  o_country : string;
  o_items : list OrderItem;
  o_subtotal : F;
  o_shipping : F;
  o_total : F;
  o_status : string
}.

(** A field that failed, or its validated value. *)
Definition field (A : Type) := (string + A)%type.

Definition errors {A} (x : field A) : list string :=
  match x with
  | inl name => [name]
  | inr _ => []
  end.

Definition check {A} (name : string) (x : option A) : field A :=
  match x with
  | Some a => inr a
  | None => inl name
  end.

(** [Field(..., ge=0)] on a float *)
Definition ge0 (x : F) : option F := if fge0 x then Some x else None.

(** [Field(..., ge=1)] on an int *)
Definition ge1 (q : Z) : option Z := if 1 <=? q then Some q else None.

(** [Product(title=..., description=..., price=..., ...)] with arguments
    of the fields' types: only [price >= 0] can fail. *)
Definition Product_new (title : string) (description : option string)
    (price : F) (category : string) (in_stock : bool)
    (image : option string) (featured : bool) : result Product :=
  match check "price" (ge0 price) with
  | inr price' =>
      Ok {| p_title := title; p_description := description;
            p_price := price'; p_category := category;
            p_in_stock := in_stock; p_image := image;
            p_featured := featured |}
  | e => Raise (ValidationError "Product" (errors e))
  end.

(** A required field of a raw record. *)
Definition required {A} (coerce : value F -> option A) (name : string)
    (d : dict F) : field A :=
  match dict_get name d with
  | Some v => check name (coerce v)
  | None => inl name
  end.

(** A field with a default. *)
Definition defaulted {A} (coerce : value F -> option A) (default : A)
    (name : string) (d : dict F) : field A :=
  match dict_get name d with
  | Some v => check name (coerce v)
  | None => inr default
  end.

(** An [Optional[...]] field with default [None]. *)
Definition optional {A} (coerce : value F -> option A) (name : string)
    (d : dict F) : field (option A) :=
  match dict_get name d with
  | Some VNone | None => inr None
  | Some v => check name (option_map Some (coerce v))
  end.

Definition float_ge0 (v : value F) : option F :=
  match coerce_float v with
  | Some x => ge0 x
  | None => None
  end.

(** [Product( **d )]: the record [d] validated field by field; keys that
    are not fields of [Product] are ignored. *)
Definition Product_validate (d : dict F) : result Product :=
  let title := required coerce_str "title" d in
  let description := optional coerce_str "description" d in
  let price := required float_ge0 "price" d in
  let category := required coerce_str "category" d in
  let in_stock := defaulted coerce_bool true "in_stock" d in
  let image := optional coerce_str "image" d in
  let featured := defaulted coerce_bool false "featured" d in
  match title, description, price, category, in_stock, image, featured with
  | inr t, inr ds, inr p, inr c, inr s, inr i, inr f =>
      Ok {| p_title := t; p_description := ds; p_price := p;
            p_category := c; p_in_stock := s; p_image := i;
            p_featured := f |}
  | _, _, _, _, _, _, _ =>
      Raise (ValidationError "Product"
               (errors title ++ errors description ++ errors price
                ++ errors category ++ errors in_stock ++ errors image
                ++ errors featured))
  end.

(** [OrderItem(product_id=..., title=..., price=..., quantity=...,
    image=...)]: [price >= 0] and [quantity >= 1]. *)
Definition OrderItem_new (product_id title : string) (price : F)
    (quantity : Z) (image : option string) : result OrderItem :=
  let price' := check "price" (ge0 price) in
  let quantity' := check "quantity" (ge1 quantity) in
  match price', quantity' with
  | inr p, inr q =>
      Ok {| oi_product_id := product_id; oi_title := title; oi_price := p;
            oi_quantity := q; oi_image := image |}
  | _, _ => Raise (ValidationError "OrderItem"
                     (errors price' ++ errors quantity'))
  end.

(** [Order(customer_name=..., ..., shipping=0, ...)]: [email] is an
    [EmailStr]; [subtotal], [shipping] and [total] are floats [>= 0];
    [shipping] is given as an int and converted. *)
Definition Order_new (customer_name email address city country : string)
    (items : list OrderItem) (subtotal : F) (shipping : Z) (total : F)
    (status : string) : result Order :=
  let email' := check "email" (validate_email email) in
  let subtotal' := check "subtotal" (ge0 subtotal) in
  let shipping' :=
    check "shipping"
      (match of_int shipping with Some x => ge0 x | None => None end) in
  let total' := check "total" (ge0 total) in
  match email', subtotal', shipping', total' with
  | inr e, inr st, inr sh, inr t =>
      Ok {| o_customer_name := customer_name; o_email := e;
            o_address := address; o_city := city; o_country := country;
            o_items := items; o_subtotal := st; o_shipping := sh;
            o_total := t; o_status := status |}
  | _, _, _, _ =>
      Raise (ValidationError "Order"
               (errors email' ++ errors subtotal' ++ errors shipping'
                ++ errors total'))
  end.
Record User := {
  u_name : string;
  u_email : string;
  u_address : string;
  u_age : option Z;
  u_is_active : bool
}.

(** [Field(None, ge=0, le=120)] on an [Optional[int]] *)
Definition age_range (age : option Z) : option (option Z) :=
  match age with
  | None => Some None
  | Some a => if (0 <=? a) && (a <=? 120) then Some (Some a) else None
  end.

(** [User(name=..., email=..., address=..., age=..., is_active=...)]:
    [email] is an [EmailStr], [age] is absent or within 0 and 120. *)
Definition User_new (name email address : string) (age : option Z)
    (is_active : bool) : result User :=
  let email' := check "email" (validate_email email) in
  let age' := check "age" (age_range age) in
  match email', age' with
  | inr e, inr a =>
      Ok {| u_name := name; u_email := e; u_address := address;
            u_age := a; u_is_active := is_active |}
  | _, _ => Raise (ValidationError "User" (errors email' ++ errors age'))
  end.
End Schemas.
Arguments Product F : clear implicits.
Arguments OrderItem F : clear implicits.
Arguments Order F : clear implicits.

(** ** The document store *)

(** What [create_document] is given: a validated model. *)
Inductive model (F : Type) :=
| MProduct (p : Product F)
| MOrder (o : Order F).
Arguments MProduct {F} p.
Arguments MOrder {F} o.

(** Modelled from the spec: [database.get_documents] and
    [database.create_document], which the handlers import but whose module is
    not among the sources.  [get_documents st collection filter limit] reads
    raw records and leaves the store as it is; [create_document st collection
    data] writes one record and returns its identifier with the store after
    the write, or raises, and then nothing was written (the single-document
    write of section 4.2). *)
Class DocumentStore (F S : Type) := {
  get_documents : S -> string -> dict F -> Z -> result (list (dict F));
  create_document : S -> string -> model F -> result (string * S)
}.

(** Code that may raise and may write to the store: the outcome comes with
    the store as it is when the code returns or raises. *)
Definition action (S A : Type) := S -> result A * S.

Definition ret {S A} (a : A) : action S A := fun st => (Ok a, st).

Definition lift {S A} (r : result A) : action S A := fun st => (r, st).

Definition bind_action {S A B} (m : action S A) (k : A -> action S B)
    : action S B :=
  fun st =>
    match m st with
    | (Ok a, st') => k a st'
    | (Raise e, st') => (Raise e, st')
    end.

Notation "x <~ m ;; k" := (bind_action m (fun x => k))
  (at level 61, m at next level, right associativity).

(** A handler's body under its [try ... except Exception]. *)
Definition handler {S A} (body : action S A) (st : S) : response A * S :=
  let (r, st') := body st in (guard r, st').

Section Store.
Context {F S : Type} `{DocumentStore F S}.

Definition read (collection : string) (filter : dict F) (limit : Z)
    : action S (list (dict F)) :=
  fun st => (get_documents st collection filter limit, st).

Definition write (collection : string) (data : model F) : action S string :=
  fun st =>
    match create_document st collection data with
    | Ok (id, st') => (Ok id, st')
    | Raise e => (Raise e, st)
    end.
End Store.

(** ** main.py *)

Section Main.
Context {F S : Type} `{PyFloat F} `{Pydantic F} `{DocumentStore F S}.

(** *** GET /api/products *)

(** [if category:] *)
Definition truthy (category : option string) : bool :=
  match category with
  | Some c => negb (String.eqb c "")
  | None => false
  end.

Definition build_query (category : option string) (featured : option bool)
    : dict F :=
  let query := [] in
  let query :=
    match category with
    | Some c => if truthy category then dict_set "category" (VStr c) query
                else query
    | None => query
    end in
  let query :=
    match featured with
    | Some b => dict_set "featured" (VBool b) query
    | None => query
    end in
  query.

(** [for d in docs: d.pop("_id", None); products.append(Product( **d ))]

    [d.pop] changes the record in place, so the loop is given the records
    and hands them back as it leaves them, next to [products] or to the
    exception that left it: the records it came to are without their
    identifier, the one that failed included, and the records after that one
    are as the store returned them. *)
Fixpoint list_products_loop (docs : list (dict F))
    (products : list (Product F))
    : result (list (Product F)) * list (dict F) :=
  match docs with
  | [] => (Ok products, [])
  | d :: rest =>
      let d := dict_pop "_id" d in
      match Product_validate d with
      | Ok p =>
          let (r, rest) := list_products_loop rest (products ++ [p]) in
          (r, d :: rest)
      | Raise e => (Raise e, d :: rest)
      end
  end.

Definition list_products (category : option string) (featured : option bool)
    (limit : Z) : S -> response (list (Product F)) * S :=
  handler (
    let query := build_query category featured in
    docs <~ read "product" query limit ;;
    lift (fst (list_products_loop docs []))).

(** *** POST /api/checkout *)

Record CartItem := {
  ci_product_id : string;
  ci_title : string;
  ci_price : F;
  ci_quantity : Z;
  ci_image : option string
}.

Record CheckoutRequest := {
  customer_name : string;
  email : string;
  address : string;
  city : string;
  country : string;
  items : list CartItem
}.

Record CheckoutResponse := {
  success : bool;
  order_id : string
}.

(** [price * quantity], a float times an int *)
Definition float_mul_int (x : F) (q : Z) : result F :=
  match of_int q with
  | Some y => Ok (fmul x y)
  | None => Raise OverflowError
  end.

(** How the loop of [checkout] ends: it runs to its end, or an exception
    leaves it; either way with the values [items] and [subtotal] have then. *)
Inductive loop_outcome :=
| Completed (items : list (OrderItem F)) (subtotal : F)
| Raised (e : exn) (items : list (OrderItem F)) (subtotal : F).

(** [for it in payload.items:
       items.append(OrderItem(...)); subtotal += it.price * it.quantity] *)
Fixpoint checkout_loop (its : list CartItem) (items : list (OrderItem F))
    (subtotal : F) : loop_outcome :=
  match its with
  | [] => Completed items subtotal
  | it :: rest =>
      match OrderItem_new (ci_product_id it) (ci_title it) (ci_price it)
                          (ci_quantity it) (ci_image it) with
      | Raise e => Raised e items subtotal
      | Ok item =>
          let items := items ++ [item] in
          match float_mul_int (ci_price it) (ci_quantity it) with
          | Raise e => Raised e items subtotal
          | Ok x => checkout_loop rest items (fadd subtotal x)
          end
      end
  end.

Definition run_loop (its : list CartItem)
    : result (list (OrderItem F) * F) :=
  match checkout_loop its [] fzero with
  | Completed items subtotal => Ok (items, subtotal)
  | Raised e _ _ => Raise e
  end.

Definition checkout (payload : CheckoutRequest)
    : S -> response CheckoutResponse * S :=
  handler (
    totals <~ lift (run_loop (items payload)) ;;
    let (items, subtotal) := totals in
    order <~ lift (Order_new (customer_name payload) (email payload)
                     (address payload) (city payload) (country payload)
                     items subtotal 0 subtotal "pending") ;;
    order_id <~ write "order" (MOrder order) ;;
    ret {| success := true; order_id := order_id |}).

(** *** POST /api/seed *)

Record Message := { message : string }.

Definition sample : result (list (Product F)) :=
  p1 <- Product_new "Spicy Chili Chips"
          (Some "Crunchy chips with a fiery chili kick.")
          (of_decimal 399 2) "snacks" true
          (Some "https://images.unsplash.com/photo-1604908177073-b5c2b6ed83e6?w=800")
          true ;;
  p2 <- Product_new "Organic Granola"
          (Some "Honey-sweetened granola with nuts and seeds.")
          (of_decimal 65 1) "breakfast" true
          (Some "https://images.unsplash.com/photo-1517677208171-0bc6725a3e60?w=800")
          true ;;
  p3 <- Product_new "Tomato Basil Soup"
          (Some "Slow-simmered tomato soup with fresh basil.")
          (of_decimal 475 2) "meals" true
          (Some "https://images.unsplash.com/photo-1547592166-23ac45744acd?w=800")
          false ;;
  p4 <- Product_new "Mango Smoothie"
          (Some "Creamy mango smoothie with yogurt.")
          (of_decimal 525 2) "drinks" true
          (Some "https://images.unsplash.com/photo-1467453678174-768ec283a940?w=800")
          false ;;
  Ok [p1; p2; p3; p4].

(** [for p in sample: create_document("product", p)] *)
Fixpoint seed_loop (ps : list (Product F)) : action S unit :=
  match ps with
  | [] => ret tt
  | p :: rest => _ <~ write "product" (MProduct p) ;; seed_loop rest
  end.

Definition seed_products : S -> response Message * S :=
  handler (
    existing <~ read "product" [] 1 ;;
    match existing with
    | _ :: _ => ret {| message := "Products already exist" |}
    | [] =>
        ps <~ lift sample ;;
        _ <~ seed_loop ps ;;
        ret {| message := "Seeded products" |}
    end).
(** *** GET /test *)

(** The [db] handle that [test_database] imports, as far as the handler
    looks at it.  [db_name] is the lookup of the attribute [name]: its value,
    [None] when there is no such attribute ([hasattr] is false), or the
    exception the lookup raises.  [list_collection_names] is the outcome of
    the call [db.list_collection_names()]. *)
Record Database := {
  db_name : result (option string);
  list_collection_names : result (list string)
}.

(** The [response] dict. *)
Record Diagnostics := {
  r_backend : string;
  r_database : string;
  r_database_url : option string;
  r_database_name : option string;
  r_connection_status : string;
  r_collections : list string
}.

Definition set_database (v : string) (r : Diagnostics) : Diagnostics :=
  {| r_backend := r_backend r; r_database := v;
     r_database_url := r_database_url r;
     r_database_name := r_database_name r;
     r_connection_status := r_connection_status r;
     r_collections := r_collections r |}.

Definition set_database_url (v : option string) (r : Diagnostics)
    : Diagnostics :=
  {| r_backend := r_backend r; r_database := r_database r;
     r_database_url := v;
     r_database_name := r_database_name r;
     r_connection_status := r_connection_status r;
     r_collections := r_collections r |}.

Definition set_database_name (v : option string) (r : Diagnostics)
    : Diagnostics :=
  {| r_backend := r_backend r; r_database := r_database r;
     r_database_url := r_database_url r;
     r_database_name := v;
     r_connection_status := r_connection_status r;
     r_collections := r_collections r |}.

Definition set_connection_status (v : string) (r : Diagnostics)
    : Diagnostics :=
  {| r_backend := r_backend r; r_database := r_database r;
     r_database_url := r_database_url r;
     r_database_name := r_database_name r;
     r_connection_status := v;
     r_collections := r_collections r |}.

Definition set_collections (v : list string) (r : Diagnostics)
    : Diagnostics :=
  {| r_backend := r_backend r; r_database := r_database r;
     r_database_url := r_database_url r;
     r_database_name := r_database_name r;
     r_connection_status := r_connection_status r;
     r_collections := v |}.

(** [response[...] = ...] *)
Definition assign (set : Diagnostics -> Diagnostics)
    : action Diagnostics unit :=
  fun r => (Ok tt, set r).

(** The inner [try]: [collections = db.list_collection_names()] and the two
    assignments after it, or the [except] branch. *)
Definition list_collections (d : Database) : action Diagnostics unit :=
  fun r =>
    match list_collection_names d with
    | Ok collections =>
        (Ok tt,
         set_database "✅ Connected & Working"
           (set_collections (firstn 10 collections) r))
    | Raise e =>
        (Ok tt,
         set_database ("⚠️  Connected but Error: " ++ take_chars 50 (str e))%string r)
    end.

(** The body of the outer [try]. *)
Definition probe (db : option Database) : action Diagnostics unit :=
  match db with
  | Some d =>
      _ <~ assign (set_database "✅ Available") ;;
      _ <~ assign (set_database_url (Some "✅ Configured")) ;;
      name <~ lift (n <- db_name d ;;
                    Ok (match n with
                        | Some n => n
                        | None => "✅ Connected"
                        end)) ;;
      _ <~ assign (set_database_name (Some name)) ;;
      _ <~ assign (set_connection_status "Connected") ;;
      list_collections d
  | None => assign (set_database "⚠️  Available but not initialized")
  end.

(** [test_database()], given the [db] handle and [os.getenv]. *)
Definition test_database (db : option Database)
    (getenv : string -> option string) : Diagnostics :=
  let response :=
    {| r_backend := "✅ Running";
       r_database := "❌ Not Available";
       r_database_url := None;
       r_database_name := None;
       r_connection_status := "Not Connected";
       r_collections := [] |} in
  let response :=
    match probe db response with
    | (Ok _, response) => response
    | (Raise e, response) =>
        set_database ("❌ Error: " ++ take_chars 50 (str e))%string response
    end in
  let response :=
    set_database_url
      (Some (if truthy (getenv "DATABASE_URL") then "✅ Set"
             else "❌ Not Set")) response in
  let response :=
    set_database_name
      (Some (if truthy (getenv "DATABASE_NAME") then "✅ Set"
             else "❌ Not Set")) response in
  response.
End Main.
Arguments CartItem F : clear implicits.
Arguments CheckoutRequest F : clear implicits.

(** ** Instances to run the handlers on *)

(** Exact rational arithmetic in the place of binary64: no rounding, no
    overflow, no NaN. *)
Definition Q_of_decimal (m : Z) (k : nat) : Q :=
  Qmake m (Z.to_pos (10 ^ Z.of_nat k)).

Lemma Q_fge0_of_decimal (m : Z) (k : nat) :
  0 <= m -> Qle_bool 0 (Q_of_decimal m k) = true.
Proof.
  intros Hm. apply Qle_bool_iff. unfold Qle, Q_of_decimal. simpl. lia.
Qed.

Lemma Q_fge0_add (x y : Q) :
  Qle_bool 0 x = true -> Qle_bool 0 y = true -> Qle_bool 0 (x + y) = true.
Proof.
  rewrite !Qle_bool_iff. intros Hx Hy.
  change 0%Q with (0 + 0)%Q. now apply Qplus_le_compat.
Qed.

Lemma Q_fge0_mul_int (x : Q) (q : Z) (y : Q) :
  Qle_bool 0 x = true -> 1 <= q -> Some (inject_Z q) = Some y ->
  Qle_bool 0 (x * y) = true.
Proof.
  rewrite !Qle_bool_iff. intros Hx Hq [= <-].
  apply Qmult_le_0_compat; [exact Hx|].
  unfold Qle, inject_Z. simpl. lia.
Qed.

#[export] Instance Q_PyFloat : PyFloat Q := {|
  fzero := 0%Q;
  fadd := Qplus;
  fmul := Qmult;
  feqb := Qeq_bool;
  fge0 := Qle_bool 0;
  of_int := fun z => Some (inject_Z z);
  of_decimal := Q_of_decimal;
  fge0_zero := eq_refl;
  of_int_zero := eq_refl;
  fge0_of_decimal := Q_fge0_of_decimal;
  fge0_add := Q_fge0_add;
  fge0_mul_int := Q_fge0_mul_int
|}.

(** A plain address check standing in for [EmailStr]: one [@], something
    before it, and a dot inside what follows it. *)
Definition plain_email (s : string) : option string :=
  match index 0 "@" s with
  | Some n =>
      let domain := substring (S n) (length s - S n) s in
      match index 0 "@" domain, index 0 "." domain with
      | None, Some (S _) => if Nat.eqb n 0 then None else Some s
      | _, _ => None
      end
  | None => None
  end.

(** Coercions that take a value of the field's type, and an int for a
    float, and nothing else. *)
#[export] Instance strict_Pydantic {F} `{PyFloat F} : Pydantic F := {|
  validate_email := plain_email;
  coerce_str := fun v => match v with VStr s => Some s | _ => None end;
  coerce_float := fun v =>
    match v with VFloat x => Some x | VInt z => of_int z | _ => None end;
  coerce_bool := fun v => match v with VBool b => Some b | _ => None end;
  coerce_str_str := fun _ => eq_refl;
  coerce_float_float := fun _ => eq_refl;
  coerce_bool_bool := fun _ => eq_refl
|}.

Section MemStore.
Context {F : Type} `{PyFloat F}.

(** [==] on raw values *)
Fixpoint value_eqb (a b : value F) : bool :=
  match a, b with
  | VNone, VNone => true
  | VBool x, VBool y => Bool.eqb x y
  | VInt x, VInt y => Z.eqb x y
  | VFloat x, VFloat y => feqb x y
  | VStr x, VStr y => String.eqb x y
  | VList xs, VList ys =>
      (fix all2 (xs ys : list (value F)) : bool :=
         match xs, ys with
         | [], [] => true
         | x :: xs', y :: ys' => value_eqb x y && all2 xs' ys'
         | _, _ => false
         end) xs ys
  | VDict xs, VDict ys =>
      (fix all2 (xs ys : list (string * value F)) : bool :=
         match xs, ys with
         | [], [] => true
         | (k, x) :: xs', (k', y) :: ys' =>
             String.eqb k k' && value_eqb x y && all2 xs' ys'
         | _, _ => false
         end) xs ys
  | _, _ => false
  end.

(** A record passes an equality filter when it has every field of the
    filter, with an equal value. *)
Definition matches (filter doc : dict F) : bool :=
  forallb (fun kv =>
             match dict_get (fst kv) doc with
             | Some v => value_eqb (snd kv) v
             | None => false
             end) filter.

Definition dump_opt (s : option string) : value F :=
  match s with
  | Some s => VStr s
  | None => VNone
  end.

(** [data.model_dump()] *)
Definition model_dump (data : model F) : dict F :=
  match data with
  | MProduct p =>
      [("title", VStr (p_title p));
       ("description", dump_opt (p_description p));
       ("price", VFloat (p_price p));
       ("category", VStr (p_category p));
       ("in_stock", VBool (p_in_stock p));
       ("image", dump_opt (p_image p));
       ("featured", VBool (p_featured p))]
  | MOrder o =>
      [("customer_name", VStr (o_customer_name o));
       ("email", VStr (o_email o));
       ("address", VStr (o_address o));
       ("city", VStr (o_city o));
       ("country", VStr (o_country o));
       ("items",
        VList (map (fun i =>
                      VDict [("product_id", VStr (oi_product_id i));
                             ("title", VStr (oi_title i));
                             ("price", VFloat (oi_price i));
                             ("quantity", VInt (oi_quantity i));
                             ("image", dump_opt (oi_image i))])
                   (o_items o)));
       ("subtotal", VFloat (o_subtotal o));
       ("shipping", VFloat (o_shipping o));
       ("total", VFloat (o_total o));
       ("status", VStr (o_status o))]
  end.

(** Modelled from the spec: a store that keeps, for each collection, its
    records in the order they were written, hands out consecutive
    identifiers, and raises on every call while it is not available. *)
Record MemStore := {
  collections : list (string * list (dict F));
  next_id : nat;
  available : bool
}.

Fixpoint records (collection : string)
    (cs : list (string * list (dict F))) : list (dict F) :=
  match cs with
  | [] => []
  | (c, docs) :: cs' =>
      if String.eqb collection c then docs else records collection cs'
  end.

Fixpoint insert_one (collection : string) (doc : dict F)
    (cs : list (string * list (dict F))) : list (string * list (dict F)) :=
  match cs with
  | [] => [(collection, [doc])]
  | (c, docs) :: cs' =>
      if String.eqb collection c then (c, docs ++ [doc]) :: cs'
      else (c, docs) :: insert_one collection doc cs'
  end.

Definition unavailable : exn := StoreError "Database not available".

(** Modelled from the spec: [getDocuments(collectionName, filter, limit)],
    equality-filtered and limit-capped. *)
Definition mem_get_documents (st : MemStore) (collection : string)
    (filter : dict F) (limit : Z) : result (list (dict F)) :=
  if available st then
    Ok (firstn (Z.to_nat limit)
          (List.filter (matches filter) (records collection (collections st))))
  else Raise unavailable.

(** Modelled from the spec: [createDocument(collectionName, record)], which
    writes one record and returns its store-assigned identifier. *)
Definition mem_create_document (st : MemStore) (collection : string)
    (data : model F) : result (string * MemStore) :=
  if available st then
    let id := NilZero.string_of_uint (Nat.to_uint (next_id st)) in
    let doc := ("_id", VStr id) :: model_dump data in
    Ok (id, {| collections := insert_one collection doc (collections st);
               next_id := S (next_id st);
               available := true |})
  else Raise unavailable.

#[export] Instance MemStore_DocumentStore : DocumentStore F MemStore := {|
  get_documents := mem_get_documents;
  create_document := mem_create_document
|}.
End MemStore.
Arguments MemStore F : clear implicits.

(** Exact rationals again, with the range of binary64 for the conversion of
    an int: integers from [2^1024] on are out of range. *)
Definition ranged_of_int (z : Z) : option Q :=
  if Z.abs z <? 2 ^ 1024 then Some (inject_Z z) else None.

Lemma ranged_fge0_mul_int (x : Q) (q : Z) (y : Q) :
  Qle_bool 0 x = true -> 1 <= q -> ranged_of_int q = Some y ->
  Qle_bool 0 (x * y) = true.
Proof.
  unfold ranged_of_int. destruct (Z.abs q <? 2 ^ 1024); [|discriminate].
  apply Q_fge0_mul_int.
Qed.

Definition ranged_Q_PyFloat : PyFloat Q := {|
  fzero := 0%Q;
  fadd := Qplus;
  fmul := Qmult;
  feqb := Qeq_bool;
  fge0 := Qle_bool 0;
  of_int := ranged_of_int;
  of_decimal := Q_of_decimal;
  fge0_zero := eq_refl;
  of_int_zero := eq_refl;
  fge0_of_decimal := Q_fge0_of_decimal;
  fge0_add := Q_fge0_add;
  fge0_mul_int := ranged_fge0_mul_int
|}.

Section QuotaStore.
Context {F : Type} `{PyFloat F}.

(** Modelled from the spec: the store above behind a quota of writes; a
    write beyond the quota raises and writes nothing. *)
Record QuotaStore := {
  inner : MemStore F;
  writes_left : nat
}.

Definition quota_create_document (st : QuotaStore) (collection : string)
    (data : model F) : result (string * QuotaStore) :=
  match writes_left st with
  | O => Raise (StoreError "quota exceeded")
  | S n =>
      r <- mem_create_document (inner st) collection data ;;
      Ok (fst r, {| inner := snd r; writes_left := n |})
  end.

#[export] Instance QuotaStore_DocumentStore : DocumentStore F QuotaStore := {|
  get_documents := fun st => mem_get_documents (inner st);
  create_document := quota_create_document
|}.
End QuotaStore.
Arguments QuotaStore F : clear implicits.

(** ** Vocabulary of the properties *)

Section Vocabulary.
Context {F S : Type} {PF : PyFloat F} {PD : Pydantic F}
  {DS : DocumentStore F S}.

(** The constraints of [OrderItem] on a cart item: [price >= 0] and
    [quantity >= 1]. *)
Definition item_ok (it : CartItem F) : Prop :=
  fge0 (ci_price it) = true /\ 1 <= ci_quantity it.

(** The snapshot of a cart item. *)
Definition to_order_item (it : CartItem F) : OrderItem F :=
  {| oi_product_id := ci_product_id it; oi_title := ci_title it;
     oi_price := ci_price it; oi_quantity := ci_quantity it;
     oi_image := ci_image it |}.

(** [x] is price times quantity of [it]. *)
Definition line_total (it : CartItem F) (x : F) : Prop :=
  exists y, of_int (ci_quantity it) = Some y /\ x = fmul (ci_price it) y.

(** The sum of [xs] from [0.0], taken from left to right. *)
Definition sum_in_order (xs : list F) : F := fold_left fadd xs fzero.


(** Lines 92 to 108 of [main.py]: the [Order] that [checkout] builds before
    it writes to the store. *)
Definition checkout_order (payload : CheckoutRequest F) : result (Order F) :=
  totals <- run_loop (items payload) ;;
  let (items, subtotal) := totals in
  Order_new (customer_name payload) (email payload) (address payload)
    (city payload) (country payload) items subtotal 0 subtotal "pending".

(** The four demo products of [seed_products], as records. *)
Definition demo_products : list (Product F) :=
  [ {| p_title := "Spicy Chili Chips";
       p_description := Some "Crunchy chips with a fiery chili kick.";
       p_price := of_decimal 399 2; p_category := "snacks";
       p_in_stock := true;
       p_image := Some "https://images.unsplash.com/photo-1604908177073-b5c2b6ed83e6?w=800";
       p_featured := true |};
    {| p_title := "Organic Granola";
       p_description := Some "Honey-sweetened granola with nuts and seeds.";
       p_price := of_decimal 65 1; p_category := "breakfast";
       p_in_stock := true;
       p_image := Some "https://images.unsplash.com/photo-1517677208171-0bc6725a3e60?w=800";
       p_featured := true |};
    {| p_title := "Tomato Basil Soup";
       p_description := Some "Slow-simmered tomato soup with fresh basil.";
       p_price := of_decimal 475 2; p_category := "meals";
       p_in_stock := true;
       p_image := Some "https://images.unsplash.com/photo-1547592166-23ac45744acd?w=800";
       p_featured := false |};
    {| p_title := "Mango Smoothie";
       p_description := Some "Creamy mango smoothie with yogurt.";
       p_price := of_decimal 525 2; p_category := "drinks";
       p_in_stock := true;
       p_image := Some "https://images.unsplash.com/photo-1467453678174-768ec283a940?w=800";
       p_featured := false |} ].

(** The writes of [ps] to the product collection, one after the other, take
    the store from [st] to [st']. *)
Fixpoint written (ps : list (Product F)) (st st' : S) : Prop :=
  match ps with
  | [] => st' = st
  | p :: rest =>
      exists id st1,
        create_document st "product" (MProduct p) = Ok (id, st1)
        /\ written rest st1 st'
  end.

(** A record has every field of an equality filter, with the same value. *)
Definition satisfies (filter doc : dict F) : Prop :=
  forall k v, dict_get k filter = Some v -> dict_get k doc = Some v.

(** [p] is the record [d] without its identifier, validated. *)
Definition validated (d : dict F) (p : Product F) : Prop :=
  dict_get "_id" (dict_pop "_id" d) = None
  /\ Product_validate (dict_pop "_id" d) = Ok p.
End Vocabulary.

(** The fields of [Product]. *)
Definition product_fields : list string :=
  ["title"; "description"; "price"; "category"; "in_stock"; "image";
   "featured"].

(** The value of the response field [database] when everything works. *)
Definition working : string := "✅ Connected & Working".

(** ** Stores and payloads of the examples *)

Definition empty_store : MemStore Q :=
  {| collections := []; next_id := 0; available := true |}.

Definition offline_store : MemStore Q :=
  {| collections := []; next_id := 0; available := false |}.

(** The store after one call of [seed_products]. *)
Definition seeded_store : MemStore Q := snd (seed_products empty_store).

Definition chips : CartItem Q :=
  {| ci_product_id := "0"; ci_title := "Spicy Chili Chips";
     ci_price := Q_of_decimal 399 2; ci_quantity := 2; ci_image := None |}.

Definition granola : CartItem Q :=
  {| ci_product_id := "1"; ci_title := "Organic Granola";
     ci_price := Q_of_decimal 65 1; ci_quantity := 1; ci_image := None |}.

Definition no_chips : CartItem Q :=
  {| ci_product_id := "0"; ci_title := "Spicy Chili Chips";
     ci_price := Q_of_decimal 399 2; ci_quantity := 0; ci_image := None |}.

Definition cart (email : string) (items : list (CartItem Q))
    : CheckoutRequest Q :=
  {| customer_name := "Ann"; email := email; address := "1 Road";
     city := "Oslo"; country := "NO"; items := items |}.

(** A product record as the store returns it. *)
Definition chips_record : dict Q :=
  [("_id", VStr "8"); ("title", VStr "Spicy Chili Chips");
   ("price", VFloat (Q_of_decimal 399 2)); ("category", VStr "snacks");
   ("featured", VBool true)].

(** The product of that record. *)
Definition chips_product : Product Q :=
  {| p_title := "Spicy Chili Chips"; p_description := None;
     p_price := Q_of_decimal 399 2; p_category := "snacks";
     p_in_stock := true; p_image := None; p_featured := true |}.

(** A product record whose price is missing. *)
Definition unpriced : dict Q :=
  [("_id", VStr "9"); ("title", VStr "Mystery Box");
   ("category", VStr "snacks")].

(** An item whose quantity is out of the range of a float. *)
Definition too_many_chips : CartItem Q :=
  {| ci_product_id := "0"; ci_title := "Spicy Chili Chips";
     ci_price := Q_of_decimal 399 2; ci_quantity := 2 ^ 1024;
     ci_image := None |}.

(** An empty store that takes two writes. *)
Definition two_writes_store : QuotaStore Q :=
  {| inner := empty_store; writes_left := 2 |}.

(** A [db] handle with twelve collections. *)
Definition twelve_collections : Database :=
  {| db_name := Ok (Some "food");
     list_collection_names :=
       Ok ["a"; "b"; "c"; "d"; "e"; "f"; "g"; "h"; "i"; "j"; "k"; "l"] |}.

(** A [db] handle whose listing raises a long message. *)
Definition broken_listing : Database :=
  {| db_name := Ok (Some "food");
     list_collection_names :=
       Raise (StoreError
         "connection refused by the server after three attempts, giving up") |}.

(** A message with characters of two bytes. *)
Definition accented_message : string :=
  "connexion refusée par le serveur après trois tentatives répétées, arrêt".

(** A [db] handle whose listing raises it. *)
Definition accented_listing : Database :=
  {| db_name := Ok (Some "food");
     list_collection_names := Raise (StoreError accented_message) |}.

(** The environment with [DATABASE_URL] set and [DATABASE_NAME] empty. *)
Definition url_only (name : string) : option string :=
  if String.eqb name "DATABASE_URL" then Some "mongodb://localhost:27017"
  else if String.eqb name "DATABASE_NAME" then Some ""
  else None.

Definition store_with (docs : list (dict Q)) : MemStore Q :=
  {| collections := [("product", docs)]; next_id := 10; available := true |}.

(** * Properties *)

(** ** Dicts *)

Section DictFacts.
Context {F : Type}.

Lemma dict_get_pop_same (k : string) (d : dict F) :
  dict_get k (dict_pop k d) = None.
Proof.
  induction d as [|[k' v] d IH]; simpl; [reflexivity|].
  destruct (String.eqb k k') eqn:E; simpl; [exact IH|].
  now rewrite E.
Qed.

Lemma dict_get_pop_other (k k' : string) (d : dict F) :
  k <> k' -> dict_get k (dict_pop k' d) = dict_get k d.
Proof.
  intros Hk. induction d as [|[k0 v] d IH]; simpl; [reflexivity|].
  destruct (String.eqb k' k0) eqn:E'.
  - apply String.eqb_eq in E'. subst k0.
    destruct (String.eqb k k') eqn:E; [|exact IH].
    apply String.eqb_eq in E. contradiction.
  - simpl. destruct (String.eqb k k0); [reflexivity|exact IH].
Qed.

Lemma dict_get_set_same (k : string) (v : value F) (d : dict F) :
  dict_get k (dict_set k v d) = Some v.
Proof.
  induction d as [|[k' v'] d IH]; simpl.
  - now rewrite String.eqb_refl.
  - destruct (String.eqb k k') eqn:E; simpl.
    + now rewrite String.eqb_refl.
    + now rewrite E.
Qed.

Lemma dict_get_set_other (k k' : string) (v : value F) (d : dict F) :
  k <> k' -> dict_get k (dict_set k' v d) = dict_get k d.
Proof.
  intros Hk. apply String.eqb_neq in Hk.
  induction d as [|[k0 v0] d IH]; simpl.
  - now rewrite Hk.
  - destruct (String.eqb k' k0) eqn:E'; simpl.
    + apply String.eqb_eq in E'. subst k0. now rewrite Hk.
    + destruct (String.eqb k k0); [reflexivity|exact IH].
Qed.
End DictFacts.

(** ** The handlers, case by case *)

Section Handlers.
Context {F S : Type} {PF : PyFloat F} {PD : Pydantic F}
  {DS : DocumentStore F S}.

Lemma OrderItem_new_ok (it : CartItem F) :
  item_ok it ->
  OrderItem_new (ci_product_id it) (ci_title it) (ci_price it)
    (ci_quantity it) (ci_image it) = Ok (to_order_item it).
Proof.
  intros [Hp Hq]. unfold OrderItem_new, ge0, ge1.
  rewrite Hp. apply Z.leb_le in Hq. now rewrite Hq.
Qed.

Lemma OrderItem_new_inv (it : CartItem F) (item : OrderItem F) :
  OrderItem_new (ci_product_id it) (ci_title it) (ci_price it)
    (ci_quantity it) (ci_image it) = Ok item ->
  item_ok it /\ item = to_order_item it.
Proof.
  unfold OrderItem_new, ge0, ge1, item_ok.
  destruct (fge0 (ci_price it)) eqn:Hp;
    destruct (1 <=? ci_quantity it) eqn:Hq; simpl; try discriminate.
  intros [= <-]. apply Z.leb_le in Hq. repeat split; assumption.
Qed.


Lemma float_mul_int_line (it : CartItem F) (x : F) :
  float_mul_int (ci_price it) (ci_quantity it) = Ok x <-> line_total it x.
Proof.
  unfold float_mul_int, line_total. split.
  - destruct (of_int (ci_quantity it)) as [y|]; [|discriminate].
    intros [= <-]. now exists y.
  - intros (y & -> & ->). reflexivity.
Qed.

(** The loop runs to its end exactly on carts whose items all pass and whose
    products are all defined; it then holds the snapshots and the sum. *)
Lemma checkout_loop_completed_inv (its : list (CartItem F)) :
  forall items subtotal items' subtotal',
    checkout_loop its items subtotal = Completed items' subtotal' ->
    Forall item_ok its
    /\ items' = items ++ map to_order_item its
    /\ exists xs, Forall2 line_total its xs
                  /\ subtotal' = fold_left fadd xs subtotal.
Proof.
  induction its as [|it its IH]; simpl; intros items subtotal items' subtotal'.
  - intros [= <- <-]. rewrite app_nil_r. repeat split; [constructor|].
    exists []. split; [constructor|reflexivity].
  - destruct (OrderItem_new _ _ _ _ _) as [item|e] eqn:Hitem; [|discriminate].
    apply OrderItem_new_inv in Hitem as [Hok ->].
    destruct (float_mul_int _ _) as [x|e] eqn:Hx; [|discriminate].
    apply float_mul_int_line in Hx. intros Hrest.
    apply IH in Hrest as (Hall & -> & xs & Hxs & ->).
    split; [now constructor|]. split; [now rewrite <- app_assoc|].
    exists (x :: xs). split; [now constructor|reflexivity].
Qed.

Lemma checkout_loop_completes (its : list (CartItem F)) :
  forall xs items subtotal,
    Forall item_ok its -> Forall2 line_total its xs ->
    checkout_loop its items subtotal
    = Completed (items ++ map to_order_item its) (fold_left fadd xs subtotal).
Proof.
  induction its as [|it its IH]; intros xs items subtotal Hall Hxs;
    inversion Hxs as [|? x ? xs' Hx Hxs']; subst; simpl.
  - now rewrite app_nil_r.
  - inversion Hall as [|? ? Hok Hall']; subst.
    rewrite (OrderItem_new_ok it Hok).
    apply float_mul_int_line in Hx. rewrite Hx.
    rewrite (IH xs' _ _ Hall' Hxs'). now rewrite <- app_assoc.
Qed.


Lemma fge0_fold (its : list (CartItem F)) :
  forall xs subtotal,
    Forall item_ok its -> Forall2 line_total its xs ->
    fge0 subtotal = true -> fge0 (fold_left fadd xs subtotal) = true.
Proof.
  induction its as [|it its IH]; intros xs subtotal Hall Hxs Hsub;
    inversion Hxs as [|? x ? xs' Hx Hxs']; subst; simpl; [exact Hsub|].
  inversion Hall as [|? ? [Hp Hq] Hall']; subst.
  destruct Hx as (y & Hy & ->).
  apply (IH xs' _ Hall' Hxs'). apply fge0_add; [exact Hsub|].
  now apply (fge0_mul_int _ (ci_quantity it)).
Qed.

Lemma run_loop_inv (its : list (CartItem F)) (items : list (OrderItem F))
    (subtotal : F) :
  run_loop its = Ok (items, subtotal) ->
  Forall item_ok its
  /\ items = map to_order_item its
  /\ exists xs, Forall2 line_total its xs /\ subtotal = sum_in_order xs.
Proof.
  unfold run_loop.
  destruct (checkout_loop its [] fzero) as [items' subtotal'|e ? ?] eqn:Hloop;
    [|discriminate].
  intros [= <- <-]. now apply checkout_loop_completed_inv in Hloop.
Qed.

Lemma run_loop_ok (its : list (CartItem F)) (xs : list F) :
  Forall item_ok its -> Forall2 line_total its xs ->
  run_loop its = Ok (map to_order_item its, sum_in_order xs).
Proof.
  intros Hall Hxs. unfold run_loop.
  now rewrite (checkout_loop_completes its xs [] fzero Hall Hxs).
Qed.

Lemma Order_new_inv (cn em ad ci co : string) (items : list (OrderItem F))
    (subtotal total : F) (status : string) (order : Order F) :
  Order_new cn em ad ci co items subtotal 0 total status = Ok order ->
  validate_email em = Some (o_email order)
  /\ fge0 subtotal = true /\ fge0 total = true
  /\ o_customer_name order = cn /\ o_address order = ad
  /\ o_city order = ci /\ o_country order = co
  /\ o_items order = items /\ o_subtotal order = subtotal
  /\ o_shipping order = fzero /\ o_total order = total
  /\ o_status order = status.
Proof.
  unfold Order_new, ge0. rewrite of_int_zero, fge0_zero.
  destruct (validate_email em) as [e'|];
    destruct (fge0 subtotal); destruct (fge0 total); simpl; try discriminate.
  intros [= <-]. simpl. repeat split; reflexivity.
Qed.

Lemma Order_new_ok (cn em ad ci co : string) (items : list (OrderItem F))
    (subtotal total : F) (status email' : string) :
  validate_email em = Some email' ->
  fge0 subtotal = true -> fge0 total = true ->
  exists order, Order_new cn em ad ci co items subtotal 0 total status = Ok order.
Proof.
  intros He Hs Ht. unfold Order_new, ge0.
  rewrite of_int_zero, fge0_zero, He, Hs, Ht. simpl. eexists. reflexivity.
Qed.

Lemma Order_new_bad_email (cn em ad ci co : string)
    (items : list (OrderItem F)) (subtotal : F) (shipping : Z) (total : F)
    (status : string) :
  validate_email em = None ->
  exists fields,
    Order_new cn em ad ci co items subtotal shipping total status
    = Raise (ValidationError "Order" fields)
    /\ In "email" fields.
Proof.
  intros He. unfold Order_new. rewrite He. simpl.
  eexists. split; [reflexivity|]. now left.
Qed.

(** [checkout] builds the order, then writes it; whatever raises becomes
    the response 500 and leaves the store as it was. *)
Lemma checkout_cases (payload : CheckoutRequest F) (st : S) :
  match checkout_order payload with
  | Raise e => checkout payload st = (HTTPException 500 (str e), st)
  | Ok order =>
      match create_document st "order" (MOrder order) with
      | Ok (id, st') =>
          checkout payload st
          = (Return {| success := true; order_id := id |}, st')
      | Raise e => checkout payload st = (HTTPException 500 (str e), st)
      end
  end.
Proof.
  unfold checkout, checkout_order, handler, bind_action, lift, write, ret.
  destruct (run_loop (items payload)) as [[items subtotal]|e]; simpl;
    [|reflexivity].
  destruct (Order_new _ _ _ _ _ _ _ _ _ _) as [order|e]; simpl;
    [|reflexivity].
  destruct (create_document st "order" (MOrder order)) as [[id st']|e];
    reflexivity.
Qed.

Lemma checkout_returns_inv (payload : CheckoutRequest F) (st st' : S)
    (body : CheckoutResponse) :
  checkout payload st = (Return body, st') ->
  exists order,
    checkout_order payload = Ok order
    /\ create_document st "order" (MOrder order) = Ok (order_id body, st')
    /\ success body = true.
Proof.
  intros Hret. pose proof (checkout_cases payload st) as Hc.
  destruct (checkout_order payload) as [order|e] eqn:Ho; [|congruence].
  destruct (create_document st "order" (MOrder order)) as [[id st1]|e] eqn:Hw;
    [|congruence].
  rewrite Hc in Hret. injection Hret as <- <-. exists order.
  repeat split. exact Hw.
Qed.

Lemma checkout_order_inv (payload : CheckoutRequest F) (order : Order F) :
  checkout_order payload = Ok order ->
  Forall item_ok (items payload)
  /\ validate_email (email payload) = Some (o_email order)
  /\ o_items order = map to_order_item (items payload)
  /\ (exists xs, Forall2 line_total (items payload) xs
                 /\ o_subtotal order = sum_in_order xs)
  /\ o_shipping order = fzero
  /\ o_total order = o_subtotal order
  /\ o_status order = "pending".
Proof.
  unfold checkout_order.
  destruct (run_loop (items payload)) as [[items subtotal]|e] eqn:Hloop;
    simpl; [|discriminate].
  apply run_loop_inv in Hloop as (Hall & -> & xs & Hxs & ->).
  intros Hnew.
  apply Order_new_inv in Hnew
    as (He & _ & _ & _ & _ & _ & _ & Hi & Hs & Hsh & Ht & Hst).
  repeat split; try assumption; try congruence.
  exists xs. split; [assumption|congruence].
Qed.

Lemma checkout_order_ok (payload : CheckoutRequest F) (xs : list F)
    (email' : string) :
  Forall item_ok (items payload) ->
  Forall2 line_total (items payload) xs ->
  validate_email (email payload) = Some email' ->
  exists order, checkout_order payload = Ok order.
Proof.
  intros Hall Hxs He. unfold checkout_order.
  rewrite (run_loop_ok _ xs Hall Hxs). simpl.
  assert (Hsum : fge0 (sum_in_order xs) = true)
    by (apply (fge0_fold (items payload)); auto using fge0_zero).
  exact (Order_new_ok _ _ _ _ _ _ _ _ _ email' He Hsum Hsum).
Qed.

Lemma checkout_order_bad_item (payload : CheckoutRequest F) :
  ~ Forall item_ok (items payload) ->
  exists e, checkout_order payload = Raise e.
Proof.
  intros Hbad. destruct (checkout_order payload) as [order|e] eqn:Ho.
  - apply checkout_order_inv in Ho as [Hall _]. contradiction.
  - now exists e.
Qed.

(** ** Checkout *)

(** C1. When [checkout] returns, the order it built and wrote has as its
    subtotal the sum, from [0.0] and in the order of the cart, of price times
    quantity of every cart item. *)
Theorem checkout_subtotal_is_sum (payload : CheckoutRequest F) (st st' : S)
    (body : CheckoutResponse) :
  checkout payload st = (Return body, st') ->
  exists order xs,
    checkout_order payload = Ok order
    /\ create_document st "order" (MOrder order) = Ok (order_id body, st')
    /\ Forall2 line_total (items payload) xs
    /\ o_subtotal order = sum_in_order xs.
Proof.
  intros Hret. apply checkout_returns_inv in Hret as (order & Ho & Hw & _).
  pose proof (checkout_order_inv _ _ Ho) as (_ & _ & _ & (xs & Hxs & Hs) & _).
  now exists order, xs.
Qed.

(** C2. The order that [checkout] writes has shipping [0.0], total equal to
    subtotal and status ["pending"], and the response carries the identifier
    the store returned and [success = True]; and [checkout] does return when
    every item passes [OrderItem], every product is defined, the email is
    valid and the store writes the order. *)
Theorem checkout_order_shape (payload : CheckoutRequest F) (st : S) :
  (forall body st',
      checkout payload st = (Return body, st') ->
      exists order,
        checkout_order payload = Ok order
        /\ create_document st "order" (MOrder order) = Ok (order_id body, st')
        /\ success body = true
        /\ o_shipping order = fzero
        /\ o_total order = o_subtotal order
        /\ o_status order = "pending")
  /\ (forall xs email',
         Forall item_ok (items payload) ->
         Forall2 line_total (items payload) xs ->
         validate_email (email payload) = Some email' ->
         exists order,
           checkout_order payload = Ok order
           /\ forall id st',
               create_document st "order" (MOrder order) = Ok (id, st') ->
               checkout payload st
               = (Return {| success := true; order_id := id |}, st')).
Proof.
  split.
  - intros body st' Hret.
    apply checkout_returns_inv in Hret as (order & Ho & Hw & Hs).
    pose proof (checkout_order_inv _ _ Ho) as (_ & _ & _ & _ & Hsh & Ht & Hst).
    exists order. repeat split; assumption.
  - intros xs email' Hall Hxs He.
    destruct (checkout_order_ok payload xs email' Hall Hxs He) as [order Ho].
    exists order. split; [exact Ho|]. intros id st' Hw.
    pose proof (checkout_cases payload st) as Hc.
    now rewrite Ho, Hw in Hc.
Qed.


(** C4. An invalid cart item makes [checkout] fail, a failing store write
    makes it fail, and whenever it fails the status is 500 and the store is
    the one it was called with: nothing was written. *)
Theorem checkout_failure_persists_nothing (payload : CheckoutRequest F)
    (st : S) :
  ((exists it, In it (items payload) /\ ~ item_ok it) ->
   exists detail, checkout payload st = (HTTPException 500 detail, st))
  /\ ((forall order, checkout_order payload = Ok order ->
         exists e, create_document st "order" (MOrder order) = Raise e) ->
      exists detail, checkout payload st = (HTTPException 500 detail, st))
  /\ (forall status_code detail st',
         checkout payload st = (HTTPException status_code detail, st') ->
         status_code = 500 /\ st' = st).
Proof.
  pose proof (checkout_cases payload st) as Hc.
  split; [|split].
  - intros (it & Hin & Hbad).
    destruct (checkout_order_bad_item payload) as [e He].
    + intros Hall. apply Hbad. now apply (proj1 (Forall_forall _ _) Hall).
    + rewrite He in Hc. now exists (str e).
  - intros Hfail. destruct (checkout_order payload) as [order|e].
    + destruct (Hfail order eq_refl) as [e He]. rewrite He in Hc.
      now exists (str e).
    + now exists (str e).
  - intros status_code detail st' Hret.
    destruct (checkout_order payload) as [order|e].
    + destruct (create_document st "order" (MOrder order)) as [[id st1]|e].
      * congruence.
      * rewrite Hc in Hret. injection Hret as <- _ <-. now split.
    + rewrite Hc in Hret. injection Hret as <- _ <-. now split.
Qed.

(** C9. A payload whose email is not a valid address makes [checkout] fail:
    the body raises, nothing is written, and the response is status 500 with
    [str] of the exception raised as its detail; when the loop over the items
    ran to its end, that exception is the [ValidationError] of [Order] and
    names [email].  An order that is built carries the validated address. *)
Theorem checkout_rejects_bad_email (payload : CheckoutRequest F) (st : S) :
  (validate_email (email payload) = None ->
   exists e,
     checkout_order payload = Raise e
     /\ checkout payload st = (HTTPException 500 (str e), st)
     /\ (forall snapshots subtotal,
            run_loop (items payload) = Ok (snapshots, subtotal) ->
            exists fields,
              e = ValidationError "Order" fields /\ In "email" fields))
  /\ (forall order,
         checkout_order payload = Ok order ->
         validate_email (email payload) = Some (o_email order)).
Proof.
  split.
  - intros He. pose proof (checkout_cases payload st) as Hc.
    destruct (checkout_order payload) as [order|e] eqn:Ho.
    + apply checkout_order_inv in Ho as (_ & Hv & _). congruence.
    + exists e. repeat split; [exact Hc|].
      intros snapshots subtotal Hloop. unfold checkout_order in Ho.
      rewrite Hloop in Ho. simpl in Ho.
      destruct (Order_new_bad_email (customer_name payload) (email payload)
                  (address payload) (city payload) (country payload)
                  snapshots subtotal 0 subtotal "pending" He)
        as (fields & Hnew & Hin).
      exists fields. split; [congruence|exact Hin].
  - intros order Ho. now apply checkout_order_inv in Ho as (_ & Hv & _).
Qed.

(** C10. A payload with no items and a valid email is accepted: [checkout]
    builds an order with no items, subtotal [0.0], total [0.0] and status
    ["pending"], and returns success with the identifier the store gives for
    it. *)
Theorem checkout_accepts_empty_cart (payload : CheckoutRequest F) (st : S)
    (email' : string) :
  items payload = [] ->
  validate_email (email payload) = Some email' ->
  exists order,
    checkout_order payload = Ok order
    /\ o_items order = [] /\ o_subtotal order = fzero
    /\ o_total order = fzero /\ o_status order = "pending"
    /\ forall id st',
        create_document st "order" (MOrder order) = Ok (id, st') ->
        checkout payload st
        = (Return {| success := true; order_id := id |}, st').
Proof.
  intros Hits He.
  destruct (checkout_order_ok payload [] email') as [order Ho];
    try (rewrite Hits; constructor); [exact He|].
  pose proof (checkout_order_inv _ _ Ho)
    as (_ & _ & Hi & (xs & Hxs & Hs) & _ & Ht & Hst).
  rewrite Hits in Hi, Hxs. inversion Hxs; subst xs.
  exists order. repeat split; try assumption; try congruence.
  - rewrite Ht. exact Hs.
  - intros id st' Hw. pose proof (checkout_cases payload st) as Hc.
    now rewrite Ho, Hw in Hc.
Qed.

(** ** Catalog query *)

Lemma Product_validate_inv (d : dict F) (p : Product F) :
  Product_validate d = Ok p ->
  required coerce_str "category" d = inr (p_category p)
  /\ defaulted coerce_bool false "featured" d = inr (p_featured p).
Proof.
  unfold Product_validate.
  destruct (required coerce_str "title" d);
    destruct (optional coerce_str "description" d);
    destruct (required float_ge0 "price" d);
    destruct (required coerce_str "category" d);
    destruct (defaulted coerce_bool true "in_stock" d);
    destruct (optional coerce_str "image" d);
    destruct (defaulted coerce_bool false "featured" d);
    try discriminate.
  intros [= <-]. split; reflexivity.
Qed.

Lemma validated_category (d : dict F) (p : Product F) (c : string) :
  validated d p -> dict_get "category" d = Some (VStr c) -> p_category p = c.
Proof.
  intros [_ Hv] Hget. apply Product_validate_inv in Hv as [Hc _].
  unfold required in Hc.
  rewrite dict_get_pop_other, Hget, coerce_str_str in Hc by discriminate.
  simpl in Hc. congruence.
Qed.

Lemma validated_featured (d : dict F) (p : Product F) (b : bool) :
  validated d p -> dict_get "featured" d = Some (VBool b) -> p_featured p = b.
Proof.
  intros [_ Hv] Hget. apply Product_validate_inv in Hv as [_ Hf].
  unfold defaulted in Hf.
  rewrite dict_get_pop_other, Hget, coerce_bool_bool in Hf by discriminate.
  simpl in Hf. congruence.
Qed.

(** What the loop gives for [products], one record at a time. *)
Lemma list_products_loop_fst (d : dict F) (docs : list (dict F))
    (products : list (Product F)) :
  fst (list_products_loop (d :: docs) products)
  = (p <- Product_validate (dict_pop "_id" d) ;;
     fst (list_products_loop docs (products ++ [p]))).
Proof.
  simpl. destruct (Product_validate (dict_pop "_id" d)) as [p|e]; simpl;
    [|reflexivity].
  now destruct (list_products_loop docs (products ++ [p])).
Qed.

Lemma list_products_loop_inv (docs : list (dict F)) :
  forall products ps,
    fst (list_products_loop docs products) = Ok ps ->
    exists qs, Forall2 validated docs qs /\ ps = products ++ qs.
Proof.
  induction docs as [|d docs IH]; intros products ps;
    [simpl|rewrite list_products_loop_fst].
  - intros [= <-]. exists []. split; [constructor|now rewrite app_nil_r].
  - destruct (Product_validate (dict_pop "_id" d)) as [p|e] eqn:Hp; simpl;
      [|discriminate].
    intros Hrest. apply IH in Hrest as (qs & Hqs & ->).
    exists (p :: qs). split; [|now rewrite <- app_assoc].
    constructor; [|exact Hqs]. split; [apply dict_get_pop_same|exact Hp].
Qed.

Lemma list_products_loop_ok (docs : list (dict F)) :
  forall products qs,
    Forall2 validated docs qs ->
    fst (list_products_loop docs products) = Ok (products ++ qs).
Proof.
  induction docs as [|d docs IH]; intros products qs Hqs;
    inversion Hqs as [|? q ? qs' [_ Hq] Hqs']; subst;
    [simpl|rewrite list_products_loop_fst].
  - now rewrite app_nil_r.
  - rewrite Hq. simpl. rewrite (IH _ qs' Hqs'). now rewrite <- app_assoc.
Qed.

Lemma list_products_loop_raises (docs : list (dict F)) :
  forall products d e,
    In d docs -> Product_validate (dict_pop "_id" d) = Raise e ->
    exists e', fst (list_products_loop docs products) = Raise e'.
Proof.
  induction docs as [|d0 docs IH]; intros products d e Hin Hd;
    [contradiction|]. rewrite list_products_loop_fst.
  destruct (Product_validate (dict_pop "_id" d0)) as [p|e0] eqn:Hp; simpl.
  - destruct Hin as [->|Hin]; [congruence|]. exact (IH _ d e Hin Hd).
  - now exists e0.
Qed.

Lemma list_products_cases (category : option string)
    (featured : option bool) (limit : Z) (st : S) :
  list_products category featured limit st
  = match get_documents st "product" (build_query category featured) limit with
    | Ok docs => (guard (fst (list_products_loop docs [])), st)
    | Raise e => (HTTPException 500 (str e), st)
    end.
Proof.
  unfold list_products, handler, bind_action, read, lift.
  destruct (get_documents st "product" (build_query category featured) limit);
    reflexivity.
Qed.

Lemma list_products_returns_inv (category : option string)
    (featured : option bool) (limit : Z) (st st' : S)
    (ps : list (Product F)) :
  list_products category featured limit st = (Return ps, st') ->
  exists docs,
    get_documents st "product" (build_query category featured) limit = Ok docs
    /\ Forall2 validated docs ps /\ st' = st.
Proof.
  rewrite list_products_cases.
  destruct (get_documents st "product" (build_query category featured) limit)
    as [docs|e]; [|discriminate].
  destruct (fst (list_products_loop docs [])) as [qs|e] eqn:Hloop; simpl;
    [|discriminate].
  intros [= <- <-]. exists docs.
  apply list_products_loop_inv in Hloop as (qs' & Hqs & ->).
  repeat split. exact Hqs.
Qed.

Lemma Forall2_validated (P : dict F -> Prop) (Q : Product F -> Prop)
    (docs : list (dict F)) (ps : list (Product F)) :
  (forall d p, validated d p -> P d -> Q p) ->
  Forall2 validated docs ps -> Forall P docs -> Forall Q ps.
Proof.
  intros Hstep Hps. induction Hps as [|d p docs ps Hv Hps IH]; intros Hdocs;
    [constructor|].
  inversion Hdocs as [|? ? Hd Hdocs']; subst.
  constructor; [exact (Hstep d p Hv Hd)|exact (IH Hdocs')].
Qed.

Lemma build_query_category (category : option string)
    (featured : option bool) :
  dict_get "category" (build_query category featured)
  = if truthy category then option_map (@VStr F) category else None.
Proof.
  unfold build_query.
  destruct category as [c|], featured as [b|]; simpl;
    try destruct (negb (String.eqb c "")); reflexivity.
Qed.

Lemma build_query_featured (category : option string)
    (featured : option bool) :
  dict_get "featured" (build_query category featured)
  = option_map (@VBool F) featured.
Proof.
  unfold build_query.
  destruct category as [c|], featured as [b|]; simpl;
    try destruct (negb (String.eqb c "")); reflexivity.
Qed.

(** C6, as the code has it.  The filter of [list_products] has a category
    clause exactly when [category] is given and is not the empty string, a
    featured clause exactly when [featured] is given ([False] included), and
    no other clause.  When the store returns only records that satisfy the
    filter, every product returned has the given [featured], and the given
    [category] if that is not empty. *)
Theorem list_products_filter (category : option string)
    (featured : option bool) (limit : Z) (st : S) :
  dict_get "category" (build_query category featured)
  = (if truthy category then option_map (@VStr F) category else None)
  /\ dict_get "featured" (build_query category featured)
     = option_map (@VBool F) featured
  /\ (forall k, k <> "category" -> k <> "featured" ->
        dict_get k (build_query (F:=F) category featured) = None)
  /\ ((forall docs,
          get_documents st "product" (build_query category featured) limit
          = Ok docs ->
          Forall (satisfies (build_query category featured)) docs) ->
      forall ps st',
        list_products category featured limit st = (Return ps, st') ->
        (forall b, featured = Some b -> Forall (fun p => p_featured p = b) ps)
        /\ (forall c, category = Some c -> c <> "" ->
              Forall (fun p => p_category p = c) ps)).
Proof.
  split; [apply build_query_category|].
  split; [apply build_query_featured|]. split.
  - intros k Hc Hf. apply String.eqb_neq in Hc, Hf. unfold build_query.
    destruct category as [c|], featured as [b|]; simpl;
      try destruct (negb (String.eqb c "")); simpl;
      rewrite ?Hc, ?Hf; reflexivity.
  - intros Hstore ps st' Hret.
    apply list_products_returns_inv in Hret as (docs & Hget & Hps & _).
    specialize (Hstore docs Hget).
    split.
    + intros b ->.
      assert (Hq : dict_get "featured" (build_query category (Some b))
                   = Some (@VBool F b)) by apply build_query_featured.
      apply (Forall2_validated _ _ docs ps) with (2 := Hps) (3 := Hstore).
      intros d p Hv Hd. exact (validated_featured d p b Hv (Hd _ _ Hq)).
    + intros c -> Hc.
      assert (Hq : dict_get "category" (build_query (Some c) featured)
                   = Some (@VStr F c)).
      { rewrite build_query_category. simpl.
        apply String.eqb_neq in Hc. now rewrite Hc. }
      apply (Forall2_validated _ _ docs ps) with (2 := Hps) (3 := Hstore).
      intros d p Hv Hd. exact (validated_category d p c Hv (Hd _ _ Hq)).
Qed.

(** The loop on records that all validate, and on records of which one
    does not: the products or the exception, and the records as it leaves
    them. *)
Lemma list_products_loop_all (docs : list (dict F)) :
  forall products qs,
    Forall2 validated docs qs ->
    list_products_loop docs products
    = (Ok (products ++ qs), map (dict_pop "_id") docs).
Proof.
  induction docs as [|d docs IH]; intros products qs Hqs;
    inversion Hqs as [|? q ? qs' [_ Hq] Hqs']; subst; simpl.
  - now rewrite app_nil_r.
  - rewrite Hq, (IH _ qs' Hqs'). now rewrite <- app_assoc.
Qed.

Lemma list_products_loop_stops (pre : list (dict F)) :
  forall products ps d post e,
    Forall2 validated pre ps ->
    Product_validate (dict_pop "_id" d) = Raise e ->
    list_products_loop (pre ++ d :: post) products
    = (Raise e, map (dict_pop "_id") pre ++ dict_pop "_id" d :: post).
Proof.
  induction pre as [|d0 pre IH]; intros products ps d post e Hps Hd;
    inversion Hps as [|? q ? ps' [_ Hq] Hps']; subst; simpl.
  - now rewrite Hd.
  - now rewrite Hq, (IH _ ps' d post e Hps' Hd).
Qed.

(** C7. [list_products] answers with what its loop over the records of the
    store gives.  The loop takes the identifier out of a record and then
    validates it: when all records pass, the products are returned, one per
    record and in the records' order, and every record is left without its
    identifier; when one does not pass, the answer is status 500 with that
    failure's message, the records before it and the failing record itself
    are left without their identifier, and the records after it are as the
    store returned them.  Any failing record makes the answer 500, and a
    list that is returned has every record's product. *)
Theorem list_products_all_or_nothing (category : option string)
    (featured : option bool) (limit : Z) (st : S) (docs : list (dict F)) :
  get_documents st "product" (build_query category featured) limit = Ok docs ->
  list_products category featured limit st
  = (guard (fst (list_products_loop docs [])), st)
  /\ (forall ps,
         Forall2 validated docs ps ->
         list_products_loop docs [] = (Ok ps, map (dict_pop "_id") docs)
         /\ Forall (fun d => dict_get "_id" d = None)
              (snd (list_products_loop docs []))
         /\ list_products category featured limit st = (Return ps, st))
  /\ (forall pre d post ps e,
         docs = pre ++ d :: post ->
         Forall2 validated pre ps ->
         Product_validate (dict_pop "_id" d) = Raise e ->
         list_products_loop docs []
         = (Raise e, map (dict_pop "_id") pre ++ dict_pop "_id" d :: post)
         /\ list_products category featured limit st
            = (HTTPException 500 (str e), st))
  /\ (forall d e,
         In d docs -> Product_validate (dict_pop "_id" d) = Raise e ->
         exists detail,
           list_products category featured limit st
           = (HTTPException 500 detail, st))
  /\ (forall ps st',
         list_products category featured limit st = (Return ps, st') ->
         Forall2 validated docs ps /\ List.length ps = List.length docs).
Proof.
  intros Hget.
  assert (Hcase : list_products category featured limit st
                  = (guard (fst (list_products_loop docs [])), st))
    by now rewrite list_products_cases, Hget.
  split; [exact Hcase|]. split; [|split; [|split]].
  - intros ps Hps. rewrite Hcase.
    rewrite (list_products_loop_all docs [] ps Hps). simpl.
    repeat split. apply Forall_forall. intros d' Hin.
    apply in_map_iff in Hin as (d & <- & _). apply dict_get_pop_same.
  - intros pre d post ps e -> Hps Hd. rewrite Hcase.
    rewrite (list_products_loop_stops pre [] ps d post e Hps Hd).
    now split.
  - intros d e Hin Hd. rewrite Hcase.
    destruct (list_products_loop_raises docs [] d e Hin Hd) as [e' ->].
    now exists (str e').
  - intros ps st' Hret.
    apply list_products_returns_inv in Hret as (docs' & Hget' & Hps & _).
    assert (docs' = docs) by congruence. subst docs'.
    split; [exact Hps|]. symmetry. exact (Forall2_length Hps).
Qed.

(** C8. When the store returns at most [limit] records for the query of
    [list_products], [list_products] returns at most [limit] products. *)
Theorem list_products_limit (category : option string)
    (featured : option bool) (limit : Z) (st st' : S)
    (ps : list (Product F)) :
  (forall docs,
      get_documents st "product" (build_query category featured) limit
      = Ok docs ->
      Z.of_nat (List.length docs) <= limit) ->
  list_products category featured limit st = (Return ps, st') ->
  Z.of_nat (List.length ps) <= limit.
Proof.
  intros Hcap Hret.
  apply list_products_returns_inv in Hret as (docs & Hget & Hps & _).
  rewrite <- (Forall2_length Hps). exact (Hcap docs Hget).
Qed.

(** ** Seed *)

Lemma sample_ok : sample = Ok demo_products.
Proof.
  unfold sample, Product_new, ge0.
  rewrite !fge0_of_decimal by lia. reflexivity.
Qed.

Lemma seed_loop_written (ps : list (Product F)) :
  forall st st', written ps st st' -> seed_loop ps st = (Ok tt, st').
Proof.
  induction ps as [|p ps IH]; simpl; intros st st'.
  - intros ->. reflexivity.
  - intros (id & st1 & Hw & Hrest).
    unfold bind_action, write. rewrite Hw. exact (IH _ _ Hrest).
Qed.

Lemma seed_loop_inv (ps : list (Product F)) :
  forall st st' u, seed_loop ps st = (Ok u, st') -> written ps st st'.
Proof.
  induction ps as [|p ps IH]; simpl; intros st st' u.
  - unfold ret. now intros [= _ <-].
  - unfold bind_action, write.
    destruct (create_document st "product" (MProduct p)) as [[id st1]|e] eqn:Hw;
      [|discriminate].
    intros Hrest. exists id, st1. split; [reflexivity|exact (IH _ _ _ Hrest)].
Qed.

Lemma written_last (ps : list (Product F)) :
  forall st st',
    written ps st st' -> ps <> [] ->
    exists s p id, create_document s "product" (MProduct p) = Ok (id, st').
Proof.
  induction ps as [|p ps IH]; intros st st' Hw Hne; [contradiction|].
  destruct Hw as (id & st1 & Hw & Hrest).
  destruct ps as [|q ps].
  - simpl in Hrest. subst st'. now exists st, p, id.
  - apply (IH st1 st' Hrest). discriminate.
Qed.

Lemma seed_products_cases (st : S) :
  seed_products st
  = match get_documents st "product" [] 1 with
    | Ok (_ :: _) => (Return {| message := "Products already exist" |}, st)
    | Ok [] =>
        match seed_loop demo_products st with
        | (Ok _, st') => (Return {| message := "Seeded products" |}, st')
        | (Raise e, st') => (HTTPException 500 (str e), st')
        end
    | Raise e => (HTTPException 500 (str e), st)
    end.
Proof.
  unfold seed_products, handler, bind_action, read, lift.
  destruct (get_documents st "product" [] 1) as [[|d ds]|e]; try reflexivity.
  rewrite sample_ok.
  destruct (seed_loop demo_products st) as [[u|e] st']; reflexivity.
Qed.

(** C5. When the store has a product, [seed_products] answers "Products
    already exist" and leaves the store as it is.  When it has none,
    [seed_products] writes the four demo products in their order, one
    [create_document] each, and answers "Seeded products" exactly when the
    four writes succeed.  In a store that shows a product once one has been
    written, a call that follows a call that returned answers "Products
    already exist" and writes nothing. *)
Theorem seed_products_idempotent (st : S) :
  (forall d ds,
      get_documents st "product" [] 1 = Ok (d :: ds) ->
      seed_products st
      = (Return {| message := "Products already exist" |}, st))
  /\ (get_documents st "product" [] 1 = Ok [] ->
      List.length (demo_products (F:=F)) = 4%nat
      /\ (forall st',
             written demo_products st st' ->
             seed_products st
             = (Return {| message := "Seeded products" |}, st'))
      /\ (forall body st',
             seed_products st = (Return body, st') ->
             written demo_products st st'
             /\ body = {| message := "Seeded products" |}))
  /\ ((forall s p id s',
          create_document s "product" (MProduct p) = Ok (id, s') ->
          exists d ds, get_documents s' "product" [] 1 = Ok (d :: ds)) ->
      forall body st1,
        seed_products st = (Return body, st1) ->
        seed_products st1
        = (Return {| message := "Products already exist" |}, st1)).
Proof.
  split; [|split].
  - intros d ds Hget. now rewrite seed_products_cases, Hget.
  - intros Hget. split; [reflexivity|]. split.
    + intros st' Hw. rewrite seed_products_cases, Hget.
      now rewrite (seed_loop_written _ _ _ Hw).
    + intros body st' Hret. rewrite seed_products_cases, Hget in Hret.
      destruct (seed_loop demo_products st) as [[u|e] st2] eqn:Hloop;
        [|discriminate].
      injection Hret as <- <-. split; [|reflexivity].
      exact (seed_loop_inv _ _ _ _ Hloop).
  - intros Hshow body st1 Hret.
    rewrite seed_products_cases in Hret.
    destruct (get_documents st "product" [] 1) as [[|d ds]|e] eqn:Hget;
      [| |discriminate].
    + destruct (seed_loop demo_products st) as [[u|e] st2] eqn:Hloop;
        [|discriminate].
      injection Hret as _ <-. apply seed_loop_inv in Hloop.
      destruct (written_last demo_products st st2 Hloop)
        as (s & p & id & Hw); [discriminate|].
      destruct (Hshow s p id st2 Hw) as (d & ds & Hget2).
      now rewrite seed_products_cases, Hget2.
    + injection Hret as _ <-. now rewrite seed_products_cases, Hget.
Qed.
End Handlers.

(** ** The in-memory store keeps the contract the properties assume *)

Section MemStoreFacts.
Context {F : Type} {PF : PyFloat F}.

Lemma records_insert_one (collection : string) (doc : dict F)
    (cs : list (string * list (dict F))) :
  records collection (insert_one collection doc cs)
  = records collection cs ++ [doc].
Proof.
  induction cs as [|[c docs] cs IH]; simpl.
  - now rewrite String.eqb_refl.
  - destruct (String.eqb collection c) eqn:E; simpl; now rewrite E.
Qed.

Lemma filter_matches_nil (docs : list (dict F)) :
  List.filter (matches []) docs = docs.
Proof.
  induction docs as [|d docs IH]; simpl; [reflexivity|now rewrite IH].
Qed.

(** A product that was written is seen by the next read. *)
Lemma mem_store_shows_writes (s s' : MemStore F) (p : Product F)
    (id : string) :
  create_document s "product" (MProduct p) = Ok (id, s') ->
  exists d ds, get_documents s' "product" [] 1 = Ok (d :: ds).
Proof.
  simpl. unfold mem_create_document, mem_get_documents.
  destruct (available s); [|discriminate]. intros [= <- <-]. simpl.
  rewrite filter_matches_nil, records_insert_one.
  destruct (records "product" (collections s)) as [|d ds]; simpl;
    eexists; eexists; reflexivity.
Qed.
End MemStoreFacts.

(** ** The properties at work *)

Lemma chips_ok : item_ok chips.
Proof. split; [reflexivity|discriminate]. Defined.

Lemma granola_ok : item_ok granola.
Proof. split; [reflexivity|discriminate]. Defined.

Lemma no_chips_bad : ~ item_ok no_chips.
Proof. intros [_ Hq]. apply Hq. reflexivity. Defined.

Lemma chips_line : line_total chips (fmul (ci_price chips) (inject_Z 2)).
Proof. exists (inject_Z 2). split; reflexivity. Defined.

Lemma granola_line : line_total granola (fmul (ci_price granola) (inject_Z 1)).
Proof. exists (inject_Z 1). split; reflexivity. Defined.

(** Two items for 3.99 x 2 and 6.5 x 1: the order written has their sum as
    its subtotal. *)
Lemma checkout_subtotal_is_sum_witness :
  let payload := cart "ann@example.com" [chips; granola] in
  checkout payload empty_store
  = (Return {| success := true; order_id := "0" |},
     snd (checkout payload empty_store))
  /\ exists order xs,
       checkout_order payload = Ok order
       /\ create_document empty_store "order" (MOrder order)
          = Ok ("0", snd (checkout payload empty_store))
       /\ Forall2 line_total (items payload) xs
       /\ o_subtotal order = sum_in_order xs.
Proof.
  intros payload. split; [reflexivity|].
  apply (checkout_subtotal_is_sum payload empty_store
           (snd (checkout payload empty_store))
           {| success := true; order_id := "0" |}).
  reflexivity.
Defined.

Lemma checkout_order_shape_witness :
  let payload := cart "ann@example.com" [chips; granola] in
  exists order,
    checkout_order payload = Ok order
    /\ create_document empty_store "order" (MOrder order)
       = Ok ("0", snd (checkout payload empty_store))
    /\ o_shipping order = fzero
    /\ o_total order = o_subtotal order
    /\ o_status order = "pending".
Proof.
  intros payload.
  destruct (checkout_order_shape payload empty_store) as [Hshape Hreturns].
  destruct (Hreturns [fmul (ci_price chips) (inject_Z 2);
                      fmul (ci_price granola) (inject_Z 1)]
              "ann@example.com") as (order & Ho & Hret).
  - exact (Forall_cons _ chips_ok (Forall_cons _ granola_ok (Forall_nil _))).
  - exact (Forall2_cons _ _ chips_line
             (Forall2_cons _ _ granola_line (Forall2_nil _))).
  - reflexivity.
  - assert (Hrun : checkout payload empty_store
                   = (Return {| success := true; order_id := "0" |},
                      snd (checkout payload empty_store))) by reflexivity.
    destruct (Hshape _ _ Hrun) as (order' & Ho' & Hw & _ & Hsh & Ht & Hst).
    exists order'. repeat split; assumption.
Defined.



Lemma checkout_failure_persists_nothing_witness :
  (exists detail,
      checkout (cart "ann@example.com" [chips; no_chips]) empty_store
      = (HTTPException 500 detail, empty_store))
  /\ (exists detail,
         checkout (cart "ann@example.com" [chips]) offline_store
         = (HTTPException 500 detail, offline_store)).
Proof.
  split.
  - apply (proj1 (checkout_failure_persists_nothing
                    (cart "ann@example.com" [chips; no_chips]) empty_store)).
    exists no_chips. split; [right; left; reflexivity|exact no_chips_bad].
  - apply (proj1 (proj2 (checkout_failure_persists_nothing
                           (cart "ann@example.com" [chips]) offline_store))).
    intros order _. exists unavailable. reflexivity.
Defined.

Lemma checkout_rejects_bad_email_witness :
  let payload := cart "ann.example.com" [chips] in
  validate_email (email payload) = None
  /\ exists e,
       checkout_order payload = Raise e
       /\ checkout payload empty_store
          = (HTTPException 500 (str e), empty_store).
Proof.
  intros payload. split; [reflexivity|].
  assert (Hbad : validate_email (email payload) = None) by reflexivity.
  destruct (proj1 (checkout_rejects_bad_email payload empty_store) Hbad)
    as (e & Ho & Hret & _).
  exists e. split; assumption.
Defined.

Lemma checkout_accepts_empty_cart_witness :
  let payload := cart "ann@example.com" [] in
  exists order st',
    checkout payload empty_store
    = (Return {| success := true; order_id := "0" |}, st')
    /\ checkout_order payload = Ok order
    /\ o_items order = [] /\ o_subtotal order = fzero
    /\ o_total order = fzero /\ o_status order = "pending".
Proof.
  intros payload.
  assert (Hgood : validate_email (email payload) = Some "ann@example.com")
    by reflexivity.
  destruct (checkout_accepts_empty_cart payload empty_store
              "ann@example.com" (eq_refl : items payload = []) Hgood)
    as (order & Ho & Hi & Hs & Ht & Hst & Hret).
  exists order. eexists. split; [apply Hret; reflexivity|].
  repeat split; assumption.
Defined.

(** The first call on an empty store writes the four products; the second
    call finds them and writes nothing. *)
Lemma seed_products_idempotent_witness :
  seed_products empty_store
  = (Return {| message := "Seeded products" |}, seeded_store)
  /\ written demo_products empty_store seeded_store
  /\ seed_products seeded_store
     = (Return {| message := "Products already exist" |}, seeded_store).
Proof.
  assert (Hempty : get_documents empty_store "product" [] 1 = Ok [])
    by reflexivity.
  assert (Hfirst : seed_products empty_store
                   = (Return {| message := "Seeded products" |}, seeded_store))
    by reflexivity.
  destruct (seed_products_idempotent empty_store) as (_ & Hwrites & Htwice).
  destruct (Hwrites Hempty) as (_ & _ & Hinv).
  split; [exact Hfirst|]. split.
  - exact (proj1 (Hinv _ _ Hfirst)).
  - apply (Htwice (fun s p id s' => mem_store_shows_writes s s' p id)
             _ _ Hfirst).
Defined.

(** The claim of C6 fails on [category=""]: the argument is given, the
    filter has no category clause, and the products returned from the seeded
    store have categories other than [""]. *)
Lemma empty_category_counterexample :
  build_query (F:=Q) (Some "") None = []
  /\ list_products (Some "") None 50 seeded_store
     = (Return demo_products, seeded_store)
  /\ Forall (fun p : Product Q => p_category p <> "") demo_products.
Proof.
  split; [reflexivity|]. split; [reflexivity|].
  repeat constructor; discriminate.
Defined.

Lemma seeded_store_filters (featured : bool) (docs : list (dict Q)) :
  get_documents seeded_store "product" (build_query None (Some featured)) 50
  = Ok docs ->
  Forall (satisfies (build_query None (Some featured))) docs.
Proof.
  assert (Hsat : forall (d : dict Q),
             dict_get "featured" d = Some (VBool featured) ->
             satisfies (build_query None (Some featured)) d).
  { intros d Hd k v. simpl.
    destruct (String.eqb_spec k "featured") as [->|_]; [|discriminate].
    now intros [= <-]. }
  destruct featured; intros [= <-]; repeat constructor; apply Hsat;
    reflexivity.
Defined.

(** [featured=False] on the seeded store: the soup and the smoothie. *)
Lemma list_products_filter_witness :
  exists ps,
    list_products None (Some false) 50 seeded_store = (Return ps, seeded_store)
    /\ List.length ps = 2%nat
    /\ Forall (fun p : Product Q => p_featured p = false) ps.
Proof.
  assert (Hrun : list_products None (Some false) 50 seeded_store
                 = (Return (skipn 2 demo_products), seeded_store))
    by reflexivity.
  exists (skipn 2 demo_products). split; [exact Hrun|]. split; [reflexivity|].
  destruct (list_products_filter None (Some false) 50 seeded_store)
    as (_ & _ & _ & Hfilter).
  exact (proj1 (Hfilter (seeded_store_filters false) _ _ Hrun) false eq_refl).
Defined.

(** All four seeded records pass and are left without their identifiers; a
    record without a price makes the whole request fail, and has lost its
    identifier by then, while the record after it has not. *)
Lemma list_products_all_or_nothing_witness :
  (list_products None None 50 seeded_store
   = (Return demo_products, seeded_store)
   /\ Forall (fun d : dict Q => dict_get "_id" d = None)
        (snd (list_products_loop
                (records "product" (collections seeded_store)) [])))
  /\ (list_products_loop [chips_record; unpriced; chips_record] []
      = (Raise (ValidationError "Product" ["price"]),
         [dict_pop "_id" chips_record; dict_pop "_id" unpriced; chips_record])
      /\ list_products None None 50
           (store_with [chips_record; unpriced; chips_record])
         = (HTTPException 500 (str (ValidationError "Product" ["price"])),
            store_with [chips_record; unpriced; chips_record])).
Proof.
  split.
  - assert (Hget : get_documents seeded_store "product"
                     (build_query None None) 50
                   = Ok (records "product" (collections seeded_store)))
      by reflexivity.
    destruct (proj1 (proj2 (list_products_all_or_nothing None None 50
                              seeded_store _ Hget)) demo_products)
      as (_ & Hids & Hret); [repeat constructor|].
    split; [exact Hret|exact Hids].
  - assert (Hget : get_documents
                     (store_with [chips_record; unpriced; chips_record])
                     "product" (build_query None None) 50
                   = Ok [chips_record; unpriced; chips_record])
      by reflexivity.
    assert (Hbad : Product_validate (dict_pop "_id" unpriced)
                   = Raise (ValidationError "Product" ["price"]))
      by reflexivity.
    refine (proj1 (proj2 (proj2 (list_products_all_or_nothing None None 50
                                   _ _ Hget)))
              [chips_record] unpriced [chips_record] [chips_product]
              (ValidationError "Product" ["price"]) eq_refl _ Hbad).
    repeat constructor.
Defined.

(** [limit=2] on the four seeded products: two are returned. *)
Lemma list_products_limit_witness :
  exists ps,
    list_products None None 2 seeded_store = (Return ps, seeded_store)
    /\ Z.of_nat (List.length ps) <= 2.
Proof.
  assert (Hrun : list_products None None 2 seeded_store
                 = (Return (firstn 2 demo_products), seeded_store))
    by reflexivity.
  exists (firstn 2 demo_products). split; [exact Hrun|].
  apply (list_products_limit None None 2 seeded_store seeded_store); 
    [|exact Hrun].
  intros docs [= <-]. discriminate.
Defined.

(** * Further properties of the handlers and the schemas *)

Section Further.
Context {F S : Type} {PF : PyFloat F} {PD : Pydantic F}
  {DS : DocumentStore F S}.

(** ** The Product schema *)

Lemma Product_validate_all (d : dict F) (p : Product F) :
  Product_validate d = Ok p ->
  required coerce_str "title" d = inr (p_title p)
  /\ optional coerce_str "description" d = inr (p_description p)
  /\ required float_ge0 "price" d = inr (p_price p)
  /\ required coerce_str "category" d = inr (p_category p)
  /\ defaulted coerce_bool true "in_stock" d = inr (p_in_stock p)
  /\ optional coerce_str "image" d = inr (p_image p)
  /\ defaulted coerce_bool false "featured" d = inr (p_featured p).
Proof.
  unfold Product_validate.
  destruct (required coerce_str "title" d);
    destruct (optional coerce_str "description" d);
    destruct (required float_ge0 "price" d);
    destruct (required coerce_str "category" d);
    destruct (defaulted coerce_bool true "in_stock" d);
    destruct (optional coerce_str "image" d);
    destruct (defaulted coerce_bool false "featured" d);
    try discriminate.
  intros [= <-]. repeat split; reflexivity.
Qed.

(** Validation either succeeds or raises with the fields that failed, in the
    order of the schema. *)
Lemma Product_validate_outcome (d : dict F) :
  (exists p, Product_validate d = Ok p)
  \/ Product_validate d
     = Raise (ValidationError "Product"
                (errors (required coerce_str "title" d)
                 ++ errors (optional coerce_str "description" d)
                 ++ errors (required float_ge0 "price" d)
                 ++ errors (required coerce_str "category" d)
                 ++ errors (defaulted coerce_bool true "in_stock" d)
                 ++ errors (optional coerce_str "image" d)
                 ++ errors (defaulted coerce_bool false "featured" d))).
Proof.
  unfold Product_validate.
  destruct (required coerce_str "title" d);
    destruct (optional coerce_str "description" d);
    destruct (required float_ge0 "price" d);
    destruct (required coerce_str "category" d);
    destruct (defaulted coerce_bool true "in_stock" d);
    destruct (optional coerce_str "image" d);
    destruct (defaulted coerce_bool false "featured" d);
    try (right; reflexivity).
  left. eexists. reflexivity.
Qed.

(** X1. [Product( **d )] looks at the seven fields of the schema only: two
    records that agree on them are validated alike, and taking any other key
    out of a record, as [d.pop("_id", None)] does, changes nothing for the
    validation. *)
Theorem Product_validate_ignores_extras :
  (forall d d' : dict F,
      (forall k, In k product_fields -> dict_get k d = dict_get k d') ->
      Product_validate d = Product_validate d')
  /\ (forall k (d : dict F),
         ~ In k product_fields ->
         Product_validate (dict_pop k d) = Product_validate d).
Proof.
  assert (Hagree : forall d d' : dict F,
             (forall k, In k product_fields -> dict_get k d = dict_get k d') ->
             Product_validate d = Product_validate d').
  { intros d d' Hsame.
    unfold Product_validate, required, optional, defaulted.
    rewrite (Hsame "title"), (Hsame "description"), (Hsame "price"),
      (Hsame "category"), (Hsame "in_stock"), (Hsame "image"),
      (Hsame "featured") by (simpl; tauto).
    reflexivity. }
  split; [exact Hagree|].
  intros k d Hk. apply Hagree. intros k' Hk'.
  apply dict_get_pop_other. intros ->. contradiction.
Qed.

(** X2. A record without [title], [price] or [category] is refused, and so
    is a record whose price is a float that is not [>= 0]; the
    [ValidationError] names the field. *)
Theorem Product_validate_rejects (d : dict F) :
  (forall k,
      In k ["title"; "price"; "category"] -> dict_get k d = None ->
      exists fields,
        Product_validate d = Raise (ValidationError "Product" fields)
        /\ In k fields)
  /\ (forall x,
         dict_get "price" d = Some (VFloat x) -> fge0 x = false ->
         exists fields,
           Product_validate d = Raise (ValidationError "Product" fields)
           /\ In "price" fields).
Proof.
  assert (Hraise : forall k,
             (k = "title" /\ required coerce_str "title" d = inl k)
             \/ (k = "price" /\ required float_ge0 "price" d = inl k)
             \/ (k = "category" /\ required coerce_str "category" d = inl k) ->
             exists fields,
               Product_validate d = Raise (ValidationError "Product" fields)
               /\ In k fields).
  { intros k Hk. destruct (Product_validate_outcome d) as [[p Hp]|Hfail].
    - apply Product_validate_all in Hp as (Ht & _ & Hpr & Hc & _).
      destruct Hk as [[_ Hk]|[[_ Hk]|[_ Hk]]]; congruence.
    - eexists. split; [exact Hfail|].
      destruct Hk as [[_ Hk]|[[_ Hk]|[_ Hk]]]; rewrite Hk;
        rewrite !in_app_iff; simpl; auto 10. }
  split.
  - intros k Hin Hnone. apply Hraise. unfold required.
    destruct Hin as [<-|[<-|[<-|[]]]]; rewrite Hnone; tauto.
  - intros x Hget Hneg. apply Hraise. right. left. split; [reflexivity|].
    unfold required, float_ge0, ge0.
    now rewrite Hget, coerce_float_float, Hneg.
Qed.

(** X3. A record that is accepted without [in_stock] gives a product in
    stock, without [featured] a product that is not featured, and without
    [description] or [image], or with [None] for them, a product without
    them. *)
Theorem Product_validate_defaults (d : dict F) (p : Product F) :
  Product_validate d = Ok p ->
  (dict_get "in_stock" d = None -> p_in_stock p = true)
  /\ (dict_get "featured" d = None -> p_featured p = false)
  /\ (dict_get "description" d = None \/ dict_get "description" d = Some VNone ->
      p_description p = None)
  /\ (dict_get "image" d = None \/ dict_get "image" d = Some VNone ->
      p_image p = None).
Proof.
  intros Hp.
  apply Product_validate_all in Hp as (_ & Hd & _ & _ & Hs & Hi & Hf).
  unfold defaulted, optional in *. repeat split.
  - intros Hnone. rewrite Hnone in Hs. congruence.
  - intros Hnone. rewrite Hnone in Hf. congruence.
  - intros [Hnone|Hnone]; rewrite Hnone in Hd; congruence.
  - intros [Hnone|Hnone]; rewrite Hnone in Hi; congruence.
Qed.

(** X4. A product that came out of validation has a price [>= 0], and its
    dump is accepted again and gives the same product. *)
Theorem Product_dump_round_trip (d : dict F) (p : Product F) :
  Product_validate d = Ok p ->
  fge0 (p_price p) = true
  /\ Product_validate (model_dump (MProduct p)) = Ok p.
Proof.
  intros Hp. apply Product_validate_all in Hp as (_ & _ & Hprice & _).
  assert (Hge : fge0 (p_price p) = true).
  { unfold required, float_ge0, ge0 in Hprice.
    destruct (dict_get "price" d) as [v|]; [|discriminate].
    destruct (coerce_float v) as [x|]; [|discriminate].
    destruct (fge0 x) eqn:Hx; [|discriminate].
    simpl in Hprice. congruence. }
  split; [exact Hge|].
  unfold Product_validate, required, optional, defaulted, float_ge0, ge0.
  simpl. rewrite !coerce_str_str, !coerce_bool_bool, coerce_float_float, Hge.
  destruct p as [t ds pr c s i f]; simpl.
  destruct ds, i; simpl; rewrite ?coerce_str_str; reflexivity.
Qed.

(** ** The User schema *)

(** X5. [User] is accepted exactly when the email is valid and the age is
    absent or from 0 to 120, both bounds included; the user then has the
    arguments as its fields, with the validated address. *)
Theorem User_new_accepts (name email address : string) (age : option Z)
    (is_active : bool) :
  ((exists u, User_new name email address age is_active = Ok u)
   <-> validate_email email <> None
       /\ match age with
          | Some a => 0 <= a <= 120
          | None => True
          end)
  /\ (forall u,
         User_new name email address age is_active = Ok u ->
         u_name u = name /\ validate_email email = Some (u_email u)
         /\ u_address u = address /\ u_age u = age
         /\ u_is_active u = is_active).
Proof.
  unfold User_new, age_range. split; [split|].
  - intros [u Hu]. destruct (validate_email email); [|discriminate].
    split; [discriminate|]. destruct age as [a|]; [|exact I].
    destruct (0 <=? a) eqn:H0; destruct (a <=? 120) eqn:H1; try discriminate.
    apply Z.leb_le in H0, H1. now split.
  - intros [He Ha]. destruct (validate_email email); [|contradiction].
    destruct age as [a|]; simpl; [|eexists; reflexivity].
    destruct Ha as [H0 H1]. apply Z.leb_le in H0, H1. rewrite H0, H1. simpl.
    eexists. reflexivity.
  - intros u. destruct (validate_email email); [|discriminate].
    destruct age as [a|]; simpl.
    + destruct ((0 <=? a) && (a <=? 120)); [|discriminate].
      simpl. intros [= <-]. repeat split.
    + intros [= <-]. repeat split.
Qed.

(** ** Checkout, further *)

Lemma checkout_order_copy (payload : CheckoutRequest F) (order : Order F) :
  checkout_order payload = Ok order ->
  o_customer_name order = customer_name payload
  /\ o_address order = address payload
  /\ o_city order = city payload
  /\ o_country order = country payload.
Proof.
  unfold checkout_order.
  destruct (run_loop (items payload)) as [[snapshots subtotal]|e]; simpl;
    [|discriminate].
  intros Hnew.
  apply Order_new_inv in Hnew as (_ & _ & _ & Hn & Ha & Hc & Hco & _).
  repeat split; assumption.
Qed.

(** X6. The order that [checkout] writes holds one item per cart item, in
    the order of the cart, each with the product id, title, price, quantity
    and image the client sent; and the customer's name, address, city and
    country as sent, with the validated email. *)
Theorem checkout_order_snapshot (payload : CheckoutRequest F) (st st' : S)
    (body : CheckoutResponse) :
  checkout payload st = (Return body, st') ->
  exists order,
    checkout_order payload = Ok order
    /\ create_document st "order" (MOrder order) = Ok (order_id body, st')
    /\ o_items order = map to_order_item (items payload)
    /\ o_customer_name order = customer_name payload
    /\ validate_email (email payload) = Some (o_email order)
    /\ o_address order = address payload
    /\ o_city order = city payload
    /\ o_country order = country payload.
Proof.
  intros Hret. apply checkout_returns_inv in Hret as (order & Ho & Hw & _).
  pose proof (checkout_order_inv _ _ Ho) as (_ & He & Hi & _).
  pose proof (checkout_order_copy _ _ Ho) as (Hn & Ha & Hc & Hco).
  exists order. repeat split; assumption.
Qed.

(** X7. When every cart item passes [OrderItem] and every price times
    quantity is defined, [checkout] can only fail through the email or
    through the store write: the checks of [Order] on subtotal, shipping and
    total never fail. *)
Theorem checkout_failure_causes (payload : CheckoutRequest F) (st st' : S)
    (xs : list F) (status_code : Z) (detail : string) :
  Forall item_ok (items payload) ->
  Forall2 line_total (items payload) xs ->
  checkout payload st = (HTTPException status_code detail, st') ->
  validate_email (email payload) = None
  \/ exists order e,
       checkout_order payload = Ok order
       /\ create_document st "order" (MOrder order) = Raise e
       /\ detail = str e.
Proof.
  intros Hall Hxs Hret.
  destruct (validate_email (email payload)) as [email'|] eqn:He;
    [right|now left].
  destruct (checkout_order_ok payload xs email' Hall Hxs He) as [order Ho].
  pose proof (checkout_cases payload st) as Hc. rewrite Ho in Hc.
  destruct (create_document st "order" (MOrder order)) as [[id st1]|e] eqn:Hw.
  - congruence.
  - exists order, e. rewrite Hc in Hret. injection Hret as _ <- _.
    repeat split; assumption.
Qed.

(** X8. A quantity too large for a float: when the items before it pass and
    the item itself passes [OrderItem], the loop is left by [OverflowError]
    after the item's snapshot was appended and before its line was added, and
    [checkout] answers 500 with that error's message and writes nothing. *)
Theorem checkout_quantity_overflow (payload : CheckoutRequest F) (st : S)
    (pre post : list (CartItem F)) (big : CartItem F) (xs : list F) :
  items payload = pre ++ big :: post ->
  Forall item_ok pre -> Forall2 line_total pre xs ->
  item_ok big -> of_int (ci_quantity big) = None ->
  checkout_loop (items payload) [] fzero
  = Raised OverflowError (map to_order_item (pre ++ [big])) (sum_in_order xs)
  /\ checkout payload st
     = (HTTPException 500 "int too large to convert to float", st).
Proof.
  intros Hits Hall Hxs Hbig Hover.
  assert (Hloop : forall snapshots subtotal,
             checkout_loop (pre ++ big :: post) snapshots subtotal
             = Raised OverflowError (snapshots ++ map to_order_item (pre ++ [big]))
                 (fold_left fadd xs subtotal)).
  { clear Hits. revert xs Hall Hxs.
    induction pre as [|it pre IH]; intros xs Hall Hxs snapshots subtotal;
      inversion Hxs as [|? x ? xs' Hx Hxs']; subst; simpl.
    - rewrite (OrderItem_new_ok big Hbig). unfold float_mul_int.
      now rewrite Hover.
    - inversion Hall as [|? ? Hok Hall']; subst.
      rewrite (OrderItem_new_ok it Hok).
      apply float_mul_int_line in Hx. rewrite Hx.
      rewrite (IH xs' Hall' Hxs'). now rewrite <- app_assoc. }
  rewrite Hits. split; [exact (Hloop [] fzero)|].
  pose proof (checkout_cases payload st) as Hc.
  unfold checkout_order, run_loop in Hc.
  rewrite Hits, (Hloop [] fzero) in Hc. exact Hc.
Qed.

(** ** Seed, further *)

Lemma seed_loop_outcome (ps : list (Product F)) :
  forall st r st',
    seed_loop ps st = (r, st') ->
    exists k, (k <= List.length ps)%nat /\ written (firstn k ps) st st'.
Proof.
  induction ps as [|p ps IH]; simpl; intros st r st'.
  - unfold ret. intros [= _ <-]. exists 0%nat. split; [lia|reflexivity].
  - unfold bind_action, write.
    destruct (create_document st "product" (MProduct p)) as [[id st1]|e] eqn:Hw.
    + intros Hrest. apply IH in Hrest as (k & Hk & Hwritten).
      exists (Datatypes.S k). split; [lia|]. simpl. now exists id, st1.
    + intros [= _ <-]. exists 0%nat. split; [lia|reflexivity].
Qed.

Lemma seed_loop_fails (ps : list (Product F)) :
  forall k st st' p e,
    written (firstn k ps) st st' -> nth_error ps k = Some p ->
    create_document st' "product" (MProduct p) = Raise e ->
    seed_loop ps st = (Raise e, st').
Proof.
  induction ps as [|q ps IH]; intros k st st' p e Hw Hnth Hfail;
    [destruct k; discriminate|].
  destruct k as [|k]; simpl in *.
  - injection Hnth as ->. subst st'. unfold bind_action, write.
    now rewrite Hfail.
  - destruct Hw as (id & st1 & Hw1 & Hrest). unfold bind_action, write.
    rewrite Hw1. exact (IH k st1 st' p e Hrest Hnth Hfail).
Qed.

(** X9. Whatever [seed_products] answers, the store it leaves is the store
    it was given after writes of some first products of the demo list, in
    their order: it writes nothing else and skips none. *)
Theorem seed_products_writes_prefix (st st' : S) (r : response Message) :
  seed_products st = (r, st') ->
  exists k, (k <= 4)%nat /\ written (firstn k demo_products) st st'.
Proof.
  rewrite seed_products_cases.
  destruct (get_documents st "product" [] 1) as [[|d ds]|e].
  - destruct (seed_loop demo_products st) as [r' st1] eqn:Hloop.
    apply seed_loop_outcome in Hloop as (k & Hk & Hw).
    intros Hret. exists k. split; [exact Hk|].
    destruct r'; injection Hret as _ <-; exact Hw.
  - intros [= _ <-]. exists 0%nat. split; [lia|reflexivity].
  - intros [= _ <-]. exists 0%nat. split; [lia|reflexivity].
Qed.

(** X10. The seeding is not transactional.  When the store is empty and a
    write fails after [k] products were written, [seed_products] answers 500
    with the store's message and leaves those [k] products in the store; if
    [k] is not 0, in a store that shows a product once one has been written,
    the next call answers "Products already exist" and does not write the
    missing ones. *)
Theorem seed_products_partial (st st' : S) (k : nat) (p : Product F)
    (e : exn) :
  get_documents st "product" [] 1 = Ok [] ->
  written (firstn k demo_products) st st' ->
  nth_error demo_products k = Some p ->
  create_document st' "product" (MProduct p) = Raise e ->
  seed_products st = (HTTPException 500 (str e), st')
  /\ ((0 < k)%nat ->
      (forall s q id s',
          create_document s "product" (MProduct q) = Ok (id, s') ->
          exists d ds, get_documents s' "product" [] 1 = Ok (d :: ds)) ->
      seed_products st'
      = (Return {| message := "Products already exist" |}, st')).
Proof.
  intros Hget Hw Hnth Hfail. split.
  - rewrite seed_products_cases, Hget.
    now rewrite (seed_loop_fails _ k st st' p e Hw Hnth Hfail).
  - intros Hk Hshow.
    destruct (written_last (firstn k demo_products) st st' Hw)
      as (s & q & id & Hlast).
    { destruct k; [lia|]. discriminate. }
    destruct (Hshow s q id st' Hlast) as (d & ds & Hget').
    now rewrite seed_products_cases, Hget'.
Qed.

(** ** Catalog query, further *)

Lemma list_products_loop_first (pre : list (dict F)) :
  forall products ps d post e,
    Forall2 validated pre ps ->
    Product_validate (dict_pop "_id" d) = Raise e ->
    fst (list_products_loop (pre ++ d :: post) products) = Raise e.
Proof.
  intros products ps d post e Hps Hd.
  now rewrite (list_products_loop_stops pre products ps d post e Hps Hd).
Qed.

(** X12. The failure that [list_products] reports is that of the first
    record, in the order the store returned them, that does not validate:
    the detail is the message of its [ValidationError], and the records
    after it are not looked at. *)
Theorem list_products_first_failure (category : option string)
    (featured : option bool) (limit : Z) (st : S)
    (pre post : list (dict F)) (d : dict F) (ps : list (Product F))
    (e : exn) :
  get_documents st "product" (build_query category featured) limit
  = Ok (pre ++ d :: post) ->
  Forall2 validated pre ps ->
  Product_validate (dict_pop "_id" d) = Raise e ->
  list_products category featured limit st = (HTTPException 500 (str e), st).
Proof.
  intros Hget Hps Hd. rewrite list_products_cases, Hget.
  now rewrite (list_products_loop_first pre [] ps d post e Hps Hd).
Qed.
End Further.

(** ** The connectivity diagnostic *)

Lemma take_chars_count (s : string) :
  forall n, char_count (take_chars n s) = Nat.min n (char_count s).
Proof.
  induction s as [|c s IH]; intros n; simpl.
  - now rewrite Nat.min_0_r.
  - destruct (is_continuation c) eqn:Hc; simpl.
    + rewrite Hc. apply IH.
    + destruct n as [|n]; simpl; [reflexivity|].
      rewrite Hc, IH. reflexivity.
Qed.

Lemma take_chars_prefix (s : string) :
  forall n, exists rest, s = (take_chars n s ++ rest)%string.
Proof.
  induction s as [|c s IH]; intros n; simpl.
  - now exists "".
  - destruct (is_continuation c).
    + destruct (IH n) as [rest Hrest]. exists rest. simpl. congruence.
    + destruct n as [|n]; [now exists (String c s)|].
      destruct (IH n) as [rest Hrest]. exists rest. simpl. congruence.
Qed.

Lemma take_chars_all (s : string) :
  forall n, (char_count s <= n)%nat -> take_chars n s = s.
Proof.
  induction s as [|c s IH]; intros n; simpl; [reflexivity|].
  destruct (is_continuation c).
  - intros Hn. now rewrite IH.
  - destruct n as [|n]; [lia|]. intros Hn. rewrite IH by lia. reflexivity.
Qed.

(** The four ways [test_database] can go. *)
Lemma test_database_fields (db : option Database)
    (getenv : string -> option string) :
  let r := test_database db getenv in
  match db with
  | None =>
      r_database r = "⚠️  Available but not initialized"
      /\ r_connection_status r = "Not Connected" /\ r_collections r = []
  | Some d =>
      match db_name d, list_collection_names d with
      | Ok _, Ok names =>
          r_database r = working
          /\ r_connection_status r = "Connected"
          /\ r_collections r = firstn 10 names
      | Ok _, Raise e =>
          r_database r = ("⚠️  Connected but Error: " ++ take_chars 50 (str e))%string
          /\ r_connection_status r = "Connected" /\ r_collections r = []
      | Raise e, _ =>
          r_database r = ("❌ Error: " ++ take_chars 50 (str e))%string
          /\ r_connection_status r = "Not Connected" /\ r_collections r = []
      end
  end.
Proof.
  destruct db as [[[n|e] [names|e']]|]; repeat split; reflexivity.
Qed.

(** X13. Whatever the [db] handle is, [database_url] and [database_name] of
    the response only tell whether the environment variables [DATABASE_URL]
    and [DATABASE_NAME] are set to a string that is not empty: what the
    handler took from [db] for them is overwritten. *)
Theorem test_database_env_only (db : option Database)
    (getenv : string -> option string) :
  r_database_url (test_database db getenv)
  = Some (if truthy (getenv "DATABASE_URL") then "✅ Set" else "❌ Not Set")
  /\ r_database_name (test_database db getenv)
     = Some (if truthy (getenv "DATABASE_NAME") then "✅ Set"
             else "❌ Not Set")
  /\ (forall db', r_database_url (test_database db' getenv)
                  = r_database_url (test_database db getenv)
                  /\ r_database_name (test_database db' getenv)
                     = r_database_name (test_database db getenv)).
Proof.
  assert (Hany : forall d,
             r_database_url (test_database d getenv)
             = Some (if truthy (getenv "DATABASE_URL") then "✅ Set"
                     else "❌ Not Set")
             /\ r_database_name (test_database d getenv)
                = Some (if truthy (getenv "DATABASE_NAME") then "✅ Set"
                        else "❌ Not Set")).
  { intros d. unfold test_database.
    destruct (probe d _) as [[u|e] r]; split; reflexivity. }
  destruct (Hany db) as [Hurl Hname].
  split; [exact Hurl|]. split; [exact Hname|].
  intros db'. destruct (Hany db') as [Hurl' Hname']. split; congruence.
Qed.

(** X14. The response lists at most ten collections: the first ten names
    that [db.list_collection_names()] returns when [db] is there, its name
    can be read and the listing succeeds, and none otherwise. *)
Theorem test_database_collections (db : option Database)
    (getenv : string -> option string) :
  (List.length (r_collections (test_database db getenv)) <= 10)%nat
  /\ (forall d n names,
         db = Some d -> db_name d = Ok n ->
         list_collection_names d = Ok names ->
         r_collections (test_database db getenv) = firstn 10 names)
  /\ (r_collections (test_database db getenv) <> [] ->
      exists d n names,
        db = Some d /\ db_name d = Ok n
        /\ list_collection_names d = Ok names).
Proof.
  pose proof (test_database_fields db getenv) as Hf. cbv zeta in Hf.
  destruct db as [d|].
  - destruct (db_name d) as [n|e] eqn:Hn;
      [destruct (list_collection_names d) as [names|e] eqn:Hl|];
      destruct Hf as (_ & _ & ->); repeat split;
      try (simpl; lia); try congruence.
    + apply firstn_le_length.
    + intros _. now exists d, n, names.
  - destruct Hf as (_ & _ & ->). repeat split; try (simpl; lia);
      congruence.
Qed.

(** X15. The response reports "Connected & Working" exactly when [db] is
    there, its name can be read and the listing succeeds, and the connection
    status "Connected" exactly when [db] is there and its name can be
    read. *)
Theorem test_database_working (db : option Database)
    (getenv : string -> option string) :
  (r_database (test_database db getenv) = working
   <-> exists d n names,
         db = Some d /\ db_name d = Ok n
         /\ list_collection_names d = Ok names)
  /\ (r_connection_status (test_database db getenv) = "Connected"
      <-> exists d n, db = Some d /\ db_name d = Ok n).
Proof.
  pose proof (test_database_fields db getenv) as Hf. cbv zeta in Hf.
  destruct db as [d|].
  - destruct (db_name d) as [n|e] eqn:Hn;
      [destruct (list_collection_names d) as [names|e] eqn:Hl|];
      destruct Hf as (-> & -> & _); split; split;
      try (intros Heq; simpl in Heq; discriminate Heq);
      try (intros (d' & n' & names' & [= <-] & Hn' & Hl'); congruence);
      try (intros (d' & n' & [= <-] & Hn'); congruence);
      intros _.
    + now exists d, n, names.
    + now exists d, n.
    + now exists d, n.
  - destruct Hf as (-> & -> & _). split; split;
      try (intros Heq; simpl in Heq; discriminate Heq);
      [intros (d' & n' & names' & Hd & _)|intros (d' & n' & Hd & _)];
      discriminate Hd.
Qed.

(** X16. When the listing raises, the response says "Connected but Error"
    followed by the first 50 characters of the message, with the connection
    status "Connected"; when reading the name of [db] raises, it says
    "Error" followed by the first 50 characters of the message, and the
    connection status stays "Not Connected"; in both cases no collection is
    listed.  The part of the message that is kept is a prefix of it of 50
    characters, whatever number of bytes they take, or the whole message
    when that has no more than 50. *)
Theorem test_database_reports_errors (db : option Database)
    (getenv : string -> option string) (d : Database) (e : exn) :
  db = Some d ->
  (forall n,
      db_name d = Ok n -> list_collection_names d = Raise e ->
      r_database (test_database db getenv)
      = ("⚠️  Connected but Error: " ++ take_chars 50 (str e))%string
      /\ r_connection_status (test_database db getenv) = "Connected"
      /\ r_collections (test_database db getenv) = [])
  /\ (db_name d = Raise e ->
      r_database (test_database db getenv)
      = ("❌ Error: " ++ take_chars 50 (str e))%string
      /\ r_connection_status (test_database db getenv) = "Not Connected"
      /\ r_collections (test_database db getenv) = [])
  /\ char_count (take_chars 50 (str e)) = Nat.min 50 (char_count (str e))
  /\ (exists rest, str e = (take_chars 50 (str e) ++ rest)%string)
  /\ ((char_count (str e) <= 50)%nat -> take_chars 50 (str e) = str e).
Proof.
  intros ->. pose proof (test_database_fields (Some d) getenv) as Hf.
  cbv beta iota zeta in Hf. split; [|split; [|split; [|split]]].
  - intros n Hn Hl. now rewrite Hn, Hl in Hf.
  - intros Hn. now rewrite Hn in Hf.
  - apply take_chars_count.
  - apply take_chars_prefix.
  - apply take_chars_all.
Qed.

(** ** The further properties at work *)

Lemma quota_store_shows_writes {F : Type} {PF : PyFloat F}
    (s s' : QuotaStore F) (p : Product F) (id : string) :
  create_document s "product" (MProduct p) = Ok (id, s') ->
  exists d ds, get_documents s' "product" [] 1 = Ok (d :: ds).
Proof.
  simpl. unfold quota_create_document.
  destruct (writes_left s) as [|n]; [discriminate|].
  destruct (mem_create_document (inner s) "product" (MProduct p))
    as [[id' m]|e] eqn:Hw; simpl; [|discriminate].
  intros [= <- <-]. simpl.
  exact (mem_store_shows_writes (inner s) m p id' Hw).
Qed.

Lemma id_is_no_field : ~ In "_id" product_fields.
Proof.
  intros Hin. simpl in Hin.
  repeat (destruct Hin as [Hin|Hin]; [discriminate Hin|]). exact Hin.
Defined.

Lemma Product_validate_ignores_extras_witness :
  Product_validate (dict_pop "_id" chips_record)
  = Product_validate chips_record.
Proof.
  apply (proj2 Product_validate_ignores_extras "_id" chips_record).
  exact id_is_no_field.
Defined.

(** A record without a price, and one with the price -1. *)
Lemma Product_validate_rejects_witness :
  (exists fields,
      Product_validate unpriced = Raise (ValidationError "Product" fields)
      /\ In "price" fields)
  /\ (exists fields,
         Product_validate
           (dict_set "price" (VFloat (inject_Z (-1))) chips_record)
         = Raise (ValidationError "Product" fields)
         /\ In "price" fields).
Proof.
  split.
  - apply (proj1 (Product_validate_rejects unpriced) "price").
    + right. left. reflexivity.
    + reflexivity.
  - apply (proj2 (Product_validate_rejects
                    (dict_set "price" (VFloat (inject_Z (-1))) chips_record))
             (inject_Z (-1))); reflexivity.
Defined.

(** The chips record has no [in_stock], [description] or [image]. *)
Lemma Product_validate_defaults_witness :
  Product_validate chips_record = Ok chips_product
  /\ p_in_stock chips_product = true
  /\ p_description chips_product = None
  /\ p_image chips_product = None.
Proof.
  assert (Hp : Product_validate chips_record = Ok chips_product)
    by reflexivity.
  destruct (Product_validate_defaults chips_record chips_product Hp)
    as (Hs & _ & Hd & Hi).
  split; [exact Hp|]. split; [apply Hs; reflexivity|].
  split; [apply Hd|apply Hi]; left; reflexivity.
Defined.

Lemma Product_dump_round_trip_witness :
  Product_validate chips_record = Ok chips_product
  /\ fge0 (p_price chips_product) = true
  /\ Product_validate (model_dump (MProduct chips_product))
     = Ok chips_product.
Proof.
  assert (Hp : Product_validate chips_record = Ok chips_product)
    by reflexivity.
  split; [exact Hp|].
  exact (Product_dump_round_trip chips_record chips_product Hp).
Defined.

(** Age 120 is accepted, age 121 is not. *)
Lemma User_new_accepts_witness :
  (exists u,
      User_new (F:=Q) "Ann" "ann@example.com" "1 Road" (Some 120) true = Ok u)
  /\ ~ (exists u,
          User_new (F:=Q) "Ann" "ann@example.com" "1 Road" (Some 121) true
          = Ok u).
Proof.
  split.
  - apply (proj1 (User_new_accepts (F:=Q) "Ann" "ann@example.com" "1 Road"
                    (Some 120) true)).
    split; [discriminate|]. split; discriminate.
  - intros Hu.
    apply (proj1 (User_new_accepts (F:=Q) "Ann" "ann@example.com" "1 Road"
                    (Some 121) true)) in Hu.
    destruct Hu as (_ & _ & Hle). apply Hle. reflexivity.
Defined.

Lemma checkout_order_snapshot_witness :
  let payload := cart "ann@example.com" [chips; granola] in
  exists order,
    checkout_order payload = Ok order
    /\ o_items order = [to_order_item chips; to_order_item granola]
    /\ o_customer_name order = "Ann"
    /\ o_city order = "Oslo".
Proof.
  intros payload.
  assert (Hrun : checkout payload empty_store
                 = (Return {| success := true; order_id := "0" |},
                    snd (checkout payload empty_store))) by reflexivity.
  destruct (checkout_order_snapshot payload _ _ _ Hrun)
    as (order & Ho & _ & Hi & Hn & _ & _ & Hc & _).
  exists order. repeat split; assumption.
Defined.

(** Good items and a good email on a store that is not available: the write
    is what fails. *)
Lemma checkout_failure_causes_witness :
  let payload := cart "ann@example.com" [chips] in
  validate_email (email payload) = None
  \/ exists order e,
       checkout_order payload = Ok order
       /\ create_document offline_store "order" (MOrder order) = Raise e
       /\ "Database not available" = str e.
Proof.
  intros payload.
  apply (checkout_failure_causes payload offline_store offline_store
           [fmul (ci_price chips) (inject_Z 2)] 500).
  - exact (Forall_cons _ chips_ok (Forall_nil _)).
  - exact (Forall2_cons _ _ chips_line (Forall2_nil _)).
  - reflexivity.
Defined.

Lemma too_many_chips_ok : item_ok (PF:=ranged_Q_PyFloat) too_many_chips.
Proof. split; [reflexivity|discriminate]. Defined.

Lemma chips_ok_ranged : item_ok (PF:=ranged_Q_PyFloat) chips.
Proof. split; [reflexivity|discriminate]. Defined.

Lemma chips_line_ranged :
  line_total (PF:=ranged_Q_PyFloat) chips
    (fmul (ci_price chips) (inject_Z 2)).
Proof. exists (inject_Z 2). split; reflexivity. Defined.

(** Chips twice, then chips [2^1024] times. *)
Lemma checkout_quantity_overflow_witness :
  let payload := cart "ann@example.com" [chips; too_many_chips] in
  checkout_loop (H:=ranged_Q_PyFloat) (items payload) [] 0%Q
  = Raised OverflowError
      [to_order_item chips; to_order_item too_many_chips]
      (0 + ci_price chips * inject_Z 2)%Q
  /\ checkout (H:=ranged_Q_PyFloat) payload empty_store
     = (HTTPException 500 "int too large to convert to float", empty_store).
Proof.
  intros payload.
  assert (Hits : items payload = [chips] ++ too_many_chips :: [])
    by reflexivity.
  assert (Hover : of_int (PyFloat:=ranged_Q_PyFloat)
                    (ci_quantity too_many_chips) = None) by reflexivity.
  exact (checkout_quantity_overflow (PF:=ranged_Q_PyFloat) payload empty_store
           [chips] [] too_many_chips [fmul (ci_price chips) (inject_Z 2)]
           Hits (Forall_cons _ chips_ok_ranged (Forall_nil _))
           (Forall2_cons _ _ chips_line_ranged (Forall2_nil _))
           too_many_chips_ok Hover).
Defined.

Lemma seed_products_writes_prefix_witness :
  exists k,
    (k <= 4)%nat
    /\ written (firstn k demo_products) two_writes_store
         (snd (seed_products two_writes_store)).
Proof.
  apply (seed_products_writes_prefix two_writes_store
           (snd (seed_products two_writes_store))
           (fst (seed_products two_writes_store))).
  reflexivity.
Defined.

(** A store that takes two writes: the soup is refused, the chips and the
    granola stay, and the next call leaves it at that. *)
Lemma seed_products_partial_witness :
  let st' := snd (seed_products two_writes_store) in
  seed_products two_writes_store
  = (HTTPException 500 "quota exceeded", st')
  /\ List.length (records "product" (collections (inner st'))) = 2%nat
  /\ seed_products st'
     = (Return {| message := "Products already exist" |}, st').
Proof.
  intros st'.
  assert (Hw : written (firstn 2 demo_products) two_writes_store st').
  { simpl. eexists. eexists. split; [reflexivity|].
    eexists. eexists. split; [reflexivity|]. reflexivity. }
  edestruct (seed_products_partial two_writes_store st' 2)
    as [Hfail Hnext];
    [reflexivity|exact Hw|reflexivity|reflexivity|].
  split; [exact Hfail|]. split; [reflexivity|].
  apply Hnext; [lia|].
  intros s q id s'. exact (quota_store_shows_writes s s' q id).
Defined.

(** The chips validate, the record without a price does not. *)
Lemma list_products_first_failure_witness :
  list_products None None 50 (store_with [chips_record; unpriced; unpriced])
  = (HTTPException 500 (str (ValidationError "Product" ["price"])),
     store_with [chips_record; unpriced; unpriced]).
Proof.
  apply (list_products_first_failure None None 50
           (store_with [chips_record; unpriced; unpriced])
           [chips_record] [unpriced] unpriced [chips_product]).
  - reflexivity.
  - repeat constructor.
  - reflexivity.
Defined.

(** Twelve collections: ten are listed. *)
Lemma test_database_collections_witness :
  r_collections (test_database (Some twelve_collections) url_only)
  = ["a"; "b"; "c"; "d"; "e"; "f"; "g"; "h"; "i"; "j"].
Proof.
  apply (proj1 (proj2 (test_database_collections (Some twelve_collections)
                         url_only))
           twelve_collections (Some "food")
           ["a"; "b"; "c"; "d"; "e"; "f"; "g"; "h"; "i"; "j"; "k"; "l"]);
    reflexivity.
Defined.

Lemma test_database_working_witness :
  r_database (test_database (Some twelve_collections) url_only) = working
  /\ r_connection_status (test_database (Some broken_listing) url_only)
     = "Connected".
Proof.
  split.
  - apply (proj1 (test_database_working (Some twelve_collections) url_only)).
    exists twelve_collections, (Some "food"),
      ["a"; "b"; "c"; "d"; "e"; "f"; "g"; "h"; "i"; "j"; "k"; "l"].
    repeat split.
  - apply (proj2 (test_database_working (Some broken_listing) url_only)).
    exists broken_listing, (Some "food"). repeat split.
Defined.

(** A message of 71 characters in 77 bytes: the 50 characters kept take 52
    bytes. *)
Lemma test_database_reports_errors_witness :
  r_database (test_database (Some accented_listing) url_only)
  = "⚠️  Connected but Error: connexion refusée par le serveur après trois tenta"
  /\ r_collections (test_database (Some accented_listing) url_only) = []
  /\ char_count (take_chars 50 accented_message) = 50%nat
  /\ String.length (take_chars 50 accented_message) = 52%nat.
Proof.
  destruct (test_database_reports_errors (Some accented_listing) url_only
              accented_listing (StoreError accented_message) eq_refl)
    as (Hlist & _ & Hcount & _).
  destruct (Hlist (Some "food") eq_refl eq_refl) as (Hd & _ & Hc).
  split; [exact Hd|]. split; [exact Hc|]. split; [exact Hcount|].
  reflexivity.
Defined.
